(** * Media handlers of the Telegram bot: audio.ts and video.ts

    A shallow embedding of [src/handlers/audio.ts] and
    [src/handlers/video.ts].  The handlers are straight-line asynchronous
    code around external collaborators (chat transport, rate limiter,
    transcription, session, audit sink, file system).  A handler is a
    computation that reads the answers of the collaborators from a [World]
    and emits the calls it performs, in order, as a list of [Event]s; an
    awaited call may reject, and the rejection travels through
    [try]/[catch]/[finally] as in the source.

    Conventions.
    - A JS string is the list of its UTF-16 code units ([JS.str]), so
      [length], [slice] and [includes] count code units as they do in JS.
      A string literal of the source is written [JS.lit "..."]: the text
      between the quotes is UTF-8 here, and [JS.lit] turns it into code
      units (one for a character of the basic plane, a surrogate pair
      beyond it).
    - A thrown value is represented by its [String(error)] rendering.
    - [console.log]/[console.error]/[console.debug] are not recorded.
    - The [StreamingState] object and the status callback handed to
      [sendMessageStreaming] are opaque to the handlers and are left out of
      the recorded call. *)

From Stdlib Require Import String Ascii List ZArith NArith QArith Bool Lia.
From Stdlib Require Import DecimalString.
Import ListNotations.
Local Open Scope string_scope.
Local Open Scope list_scope.
Local Open Scope Z_scope.

(* ------------------------------------------------------------------ *)
(** ** JS values and string primitives *)

Module JS.

(** A JS string: its UTF-16 code units, each a number below 65536. *)
Definition str : Type := list N.

(** UTF-8 bytes to UTF-16 code units.  A lead byte below 128 is a code
    unit; lead bytes from 192, 224 and 240 open sequences of two, three
    and four bytes; a code point from 65536 on becomes a surrogate pair. *)
Fixpoint utf16_of_utf8 (bytes : list N) : str :=
  match bytes with
  | [] => []
  | b :: rest =>
      if (b <? 128)%N then b :: utf16_of_utf8 rest
      else if (b <? 224)%N then
        match rest with
        | c1 :: rest1 =>
            ((b - 192) * 64 + (c1 - 128))%N :: utf16_of_utf8 rest1
        | [] => []
        end
      else if (b <? 240)%N then
        match rest with
        | c1 :: c2 :: rest2 =>
            ((b - 224) * 4096 + (c1 - 128) * 64 + (c2 - 128))%N
            :: utf16_of_utf8 rest2
        | _ => []
        end
      else
        match rest with
        | c1 :: c2 :: c3 :: rest3 =>
            let cp :=
              ((b - 240) * 262144 + (c1 - 128) * 4096 + (c2 - 128) * 64
               + (c3 - 128))%N in
            (55296 + (cp - 65536) / 1024)%N
            :: (56320 + (cp - 65536) mod 1024)%N
            :: utf16_of_utf8 rest3
        | _ => []
        end
  end.

(** A string literal of the source. *)
Definition lit (s : string) : str :=
  utf16_of_utf8 (map N_of_ascii (list_ascii_of_string s)).

(** The code unit of ["."]. *)
Definition dot : N := 46.

Definition nl : str := [10%N].
Definition dquote : str := [34%N].

(** Truthiness of [string | undefined]: [undefined] and the empty string
    are falsy. *)
Definition truthy (s : option str) : option str :=
  match s with
  | Some (c :: s') => Some (c :: s')
  | _ => None
  end.

(** [a || b] on [string | undefined] with a string default. *)
Definition or_else (s : option str) (d : str) : str :=
  match truthy s with Some v => v | None => d end.

(** Truthiness of [number | undefined]: [undefined] and [0] are falsy. *)
Definition truthy_num (n : option Z) : option Z :=
  match n with
  | Some v => if Z.eqb v 0 then None else Some v
  | None => None
  end.

(** [s.slice(0, n)] *)
Definition slice0 (n : nat) (s : str) : str := firstn n s.

(** [a === b] on strings *)
Fixpoint eqb (a b : str) : bool :=
  match a, b with
  | [], [] => true
  | x :: a', y :: b' => N.eqb x y && eqb a' b'
  | _, _ => false
  end.

(** [p] is an initial segment of [s]. *)
Fixpoint prefix (p s : str) : bool :=
  match p, s with
  | [], _ => true
  | x :: p', y :: s' => N.eqb x y && prefix p' s'
  | _ :: _, [] => false
  end.

(** [s.startsWith(p)] *)
Definition startsWith (s p : str) : bool := prefix p s.

(** [s.includes(p)] *)
Fixpoint includes (s p : str) : bool :=
  prefix p s ||
  match s with
  | [] => false
  | _ :: s' => includes s' p
  end.

(** [s.split(sep)] for a one-character separator: never empty. *)
Fixpoint split (sep : N) (s : str) : list str :=
  match s with
  | [] => [[]]
  | c :: s' =>
      if N.eqb c sep then [] :: split sep s'
      else match split sep s' with
           | [] => [[c]]
           | seg :: rest => (c :: seg) :: rest
           end
  end.

(** [arr.pop()]: the last element, [undefined] on an empty array. *)
Fixpoint pop (l : list str) : option str :=
  match l with
  | [] => None
  | [x] => Some x
  | _ :: l' => pop l'
  end.

Definition lower_char (c : N) : N :=
  if ((65 <=? c) && (c <=? 90))%N then (c + 32)%N else c.

(** [s.toLowerCase()] on the ASCII range. *)
Definition toLowerCase (s : str) : str := map lower_char s.

(** Interpolation [`${n}`] of a non-negative integer. *)
Definition of_N (n : N) : str :=
  lit (NilZero.string_of_uint (N.to_uint n)).

(** Interpolation [`${s}`] of [string | undefined]. *)
Definition of_opt (s : option str) : str :=
  match s with Some v => v | None => lit "undefined" end.

End JS.


(* ------------------------------------------------------------------ *)
(** ** Data model *)

(** The part of grammy's [Context] the handlers read. *)
Record User := { user_id : Z; user_username : option JS.str }.
Record Chat := { chat_id : Z }.
Record Audio := { audio_file_name : option JS.str }.
Record Video := { video_file_size : option Z }.
Record Message := {
  msg_audio : option Audio;
  msg_video : option Video;
  msg_video_note : option Video;
  msg_caption : option JS.str
}.
Record Context := {
  ctx_from : option User;
  ctx_chat : option Chat;
  ctx_message : option Message;
  api_token : JS.str
}.

(** A message returned by [ctx.reply]. *)
Record SentMessage := { message_id : Z; sent_chat_id : Z }.

(** The result of [ctx.getFile()]. *)
Record File := { file_path : option JS.str }.

Definition Bytes := list Byte.byte.

(** The body carried by the [Response] of [fetch]. *)
Definition Response := Bytes.

(** The constants imported from [../config]. *)
Record Config := {
  ALLOWED_USERS : list Z;
  TEMP_DIR : JS.str;
  TRANSCRIPTION_AVAILABLE : bool
}.

(** How a call ended: it returned a value, or threw / rejected. *)
Inductive Outcome (A : Type) : Type :=
| Returned (a : A)
| Raised (err : JS.str).
Arguments Returned {A} a.
Arguments Raised {A} err.

(** The calls a handler performs on its collaborators, each with the
    answer it got. *)
Inductive Event : Type :=
| EReply (text : JS.str) (out : Outcome SentMessage)
| EEditMessageText (chatId messageId : Z) (text : JS.str) (out : Outcome unit)
| EDeleteMessage (chatId messageId : Z) (out : Outcome unit)
| EGetFile (out : Outcome File)
| EDateNow (timestamp : N)
| EFetch (url : JS.str) (out : Outcome Response)
| EArrayBuffer (out : Outcome Bytes)
| EBunWrite (path : JS.str) (buffer : Bytes) (out : Outcome unit)
| EUnlinkSync (path : JS.str) (out : Outcome unit)
| ERateLimiterCheck (userId : Z) (allowed : bool) (retryAfter : option Q)
| EAuditLogRateLimit (userId : Z) (username : JS.str) (retryAfter : option Q)
    (out : Outcome unit)
| EAuditLog (userId : Z) (username kind input output : JS.str)
    (out : Outcome unit)
| ETranscribeVoice (path : JS.str) (out : Outcome (option JS.str))
| EStartProcessing
| EStopProcessing
| EStartTypingIndicator
| ETypingStop
| EIsActive (active : bool)
| ESetConversationTitle (title : JS.str)
| ESendMessageStreaming (prompt username : JS.str) (userId chatId : Z)
    (out : Outcome JS.str)
| EConsumeInterruptFlag (wasInterrupt : bool)
| EHandleProcessingError (err : JS.str) (out : Outcome unit).

Definition Trace := list Event.

(** The collaborators.  Every answer may depend on everything that
    happened so far (the trace up to the call) and on the arguments.
    Awaited calls answer with an [Outcome]; synchronous calls of the
    session, the rate limiter and the clock return. *)
Record World := {
  ctx_reply : Trace -> JS.str -> Outcome SentMessage;
  api_editMessageText : Trace -> Z -> Z -> JS.str -> Outcome unit;
  api_deleteMessage : Trace -> Z -> Z -> Outcome unit;
  ctx_getFile : Trace -> Outcome File;
  Date_now : Trace -> N;
  fetch : Trace -> JS.str -> Outcome Response;
  response_arrayBuffer : Trace -> Response -> Outcome Bytes;
  Bun_write : Trace -> JS.str -> Bytes -> Outcome unit;
  unlinkSync : Trace -> JS.str -> Outcome unit;
  rateLimiter_check : Trace -> Z -> bool * option Q;
  auditLogRateLimit : Trace -> Z -> JS.str -> option Q -> Outcome unit;
  auditLog : Trace -> Z -> JS.str -> JS.str -> JS.str -> JS.str -> Outcome unit;
  transcribeVoice : Trace -> JS.str -> Outcome (option JS.str);
  session_isActive : Trace -> bool;
  session_sendMessageStreaming :
    Trace -> JS.str -> JS.str -> Z -> Z -> Outcome JS.str;
  session_consumeInterruptFlag : Trace -> bool;
  handleProcessingError : Trace -> JS.str -> Outcome unit;
  (** [Number.prototype.toFixed(1)] of the runtime *)
  toFixed1 : Q -> JS.str
}.

(* ------------------------------------------------------------------ *)
(** ** The handler monad: history in, outcome and emitted events out *)

Definition M (A : Type) : Type := Trace -> Outcome A * Trace.

Definition ret {A} (a : A) : M A := fun _ => (Returned a, []).

Definition throw {A} (err : JS.str) : M A := fun _ => (Raised err, []).

Definition bind {A B} (m : M A) (k : A -> M B) : M B :=
  fun h =>
    match m h with
    | (Returned a, t1) =>
        match k a (h ++ t1)%list with
        | (r, t2) => (r, (t1 ++ t2)%list)
        end
    | (Raised err, t1) => (Raised err, t1)
    end.

(** [try { body } catch (error) { handler }] *)
Definition try_catch {A} (body : M A) (handler : JS.str -> M A) : M A :=
  fun h =>
    match body h with
    | (Returned a, t1) => (Returned a, t1)
    | (Raised err, t1) =>
        match handler err (h ++ t1)%list with
        | (r, t2) => (r, (t1 ++ t2)%list)
        end
    end.

(** [try { body } finally { final }]: [final] runs on every exit of
    [body]; when [final] throws, its exception replaces the outcome. *)
Definition try_finally {A} (body : M A) (final : M unit) : M A :=
  fun h =>
    match body h with
    | (r, t1) =>
        match final (h ++ t1)%list with
        | (Returned _, t2) => (r, (t1 ++ t2)%list)
        | (Raised err, t2) => (Raised err, (t1 ++ t2)%list)
        end
    end.

(** An awaited or throwing call: ask the world, record call and answer. *)
Definition call {A} (ask : Trace -> Outcome A) (ev : Outcome A -> Event)
  : M A :=
  fun h => let out := ask h in (out, [ev out]).

(** A synchronous call that returns: ask the world, record it. *)
Definition query {A} (ask : Trace -> A) (ev : A -> Event) : M A :=
  fun h => let a := ask h in (Returned a, [ev a]).

(** A call without a result the handler reads. *)
Definition emit (ev : Event) : M unit := fun _ => (Returned tt, [ev]).

Declare Scope handler_scope.
Delimit Scope handler_scope with handler.
Notation "x <- m ;; k" := (bind m (fun x => k))
  (at level 61, m at next level, right associativity) : handler_scope.
Notation "m ;; k" := (bind m (fun _ => k))
  (at level 61, right associativity) : handler_scope.
Local Open Scope handler_scope.

(** The events of a run, and its outcome, from an empty history. *)
Definition trace_of {A} (m : M A) : Trace := snd (m []).
Definition outcome_of {A} (m : M A) : Outcome A := fst (m []).

(* ------------------------------------------------------------------ *)
(** ** Helpers imported from [../security] *)

(** Modelled from the spec: [isAuthorized] of [../security] is not part of
    the sources at hand.  The spec gives the contract
    [isAuthorized(userId, allowList) -> bool], a static allow-list check:
    the user is authorized exactly when the id is on the list. *)
Definition isAuthorized (userId : Z) (allowList : list Z) : bool :=
  existsb (Z.eqb userId) allowList.

(* ------------------------------------------------------------------ *)
(** ** audio.ts *)

Definition AUDIO_EXTENSIONS : list JS.str :=
  map JS.lit
    [".mp3"; ".m4a"; ".ogg"; ".wav"; ".aac"; ".flac"; ".opus"; ".wma"].

(** [isAudioFile(fileName?, mimeType?)] *)
Definition isAudioFile (fileName mimeType : option JS.str) : bool :=
  if match mimeType with
     | Some m => JS.startsWith m (JS.lit "audio/")
     | None => false
     end
  then true
  else
    match JS.truthy fileName with
    | Some fileName =>
        let ext :=
          [JS.dot] ++ JS.toLowerCase (JS.or_else (JS.pop (JS.split JS.dot
              fileName))
                                   []) in
        existsb (JS.eqb ext) AUDIO_EXTENSIONS
    | None => false
    end.

(** The transcript shown in the status message: [maxDisplay = 4000]. *)
Definition displayTranscript (transcript : JS.str) : JS.str :=
  let maxDisplay := 4000%nat in
  if Nat.ltb maxDisplay (List.length transcript)
  then JS.slice0 maxDisplay transcript ++ JS.lit "…"
  else transcript.

(** [caption ? `${transcript}\n\n---\n\n${caption}` : transcript] *)
Definition audio_prompt (transcript : JS.str) (caption : option JS.str)
  : JS.str :=
  match JS.truthy caption with
  | Some caption =>
      transcript ++ JS.nl ++ JS.nl ++ JS.lit "---" ++ JS.nl ++ JS.nl ++ caption
  | None => transcript
  end.

(** [raw.length > 50 ? raw.slice(0, 47) + "..." : raw], the expression both
    handlers use for the conversation title. *)
Definition title (raw : JS.str) : JS.str :=
  if Nat.ltb 50 (List.length raw)
  then JS.slice0 47 raw ++ JS.lit "..."
  else raw.

(** [String(error).includes("abort") || String(error).includes("cancel")] *)
Definition is_cancellation (error : JS.str) : bool :=
  JS.includes error (JS.lit "abort") || JS.includes error (JS.lit "cancel").

(** [audio.file_name?.split(".").pop() || "mp3"] *)
Definition audio_ext (file_name : option JS.str) : JS.str :=
  JS.or_else
    match file_name with
    | Some n => JS.pop (JS.split JS.dot n)
    | None => None
    end
    (JS.lit "mp3").

(** [ctx.message?.caption] *)
Definition message_caption (ctx : Context) : option JS.str :=
  match ctx_message ctx with
  | Some m => msg_caption m
  | None => None
  end.

(** [`https://api.telegram.org/file/bot${ctx.api.token}/${file.file_path}`] *)
Definition file_url (ctx : Context) (file : File) : JS.str :=
  JS.lit "https://api.telegram.org/file/bot" ++ api_token ctx ++ JS.lit "/"
  ++ JS.of_opt (file_path file).

Definition MSG_UNAUTHORIZED : JS.str :=
  (JS.lit "Unauthorized. Contact the bot owner for access.").
Definition MSG_NOT_CONFIGURED : JS.str :=
  (JS.lit "Voice transcription is not configured. Set OPENAI_API_KEY in .env").
Definition MSG_TRANSCRIBING : JS.str := JS.lit "🎤 Transcribing audio...".
Definition MSG_TRANSCRIPTION_FAILED : JS.str :=
    JS.lit "❌ Transcription failed.".
Definition MSG_QUERY_STOPPED : JS.str := JS.lit "🛑 Query stopped.".
Definition MSG_ERROR_PREFIX : JS.str := JS.lit "❌ Error: ".
Definition MSG_AUDIO_DOWNLOAD_FAILED : JS.str :=
  (JS.lit "❌ Failed to download audio file.").

Section Handlers.

Variable cfg : Config.
Variable w : World.

(** The rate-limit branch shared verbatim by both handlers:
    [auditLogRateLimit], then the reply with [retryAfter!.toFixed(1)];
    the non-null assertion is erased at run time, so a missing value
    makes [toFixed] throw. *)
Definition rate_limited (userId : Z) (username : JS.str)
    (retryAfter : option Q) : M unit :=
  call (fun h => auditLogRateLimit w h userId username retryAfter)
       (EAuditLogRateLimit userId username retryAfter) ;;
  match retryAfter with
  | None => throw (JS.lit "TypeError: undefined is not an object")
  | Some r =>
      let text :=
        JS.lit "⏳ Rate limited. Please wait " ++ toFixed1 w r
            ++ JS.lit " seconds." in
      _ <- call (fun h => ctx_reply w h text) (EReply text) ;;
      ret tt
  end.

(** The [catch] block of [processAudioFile]. *)
Definition audio_catch (error : JS.str) : M unit :=
  if is_cancellation error then
    wasInterrupt <-
      query (session_consumeInterruptFlag w) EConsumeInterruptFlag ;;
    if negb wasInterrupt then
      _ <- call (fun h => ctx_reply w h MSG_QUERY_STOPPED)
                (EReply MSG_QUERY_STOPPED) ;;
      ret tt
    else ret tt
  else
    let text := MSG_ERROR_PREFIX ++ JS.slice0 200 error in
    _ <- call (fun h => ctx_reply w h text) (EReply text) ;;
    ret tt.

(** The [finally] block of [processAudioFile]. *)
Definition audio_finally (filePath : JS.str) : M unit :=
  emit EStopProcessing ;;
  emit ETypingStop ;;
  try_catch
    (call (fun h => unlinkSync w h filePath) (EUnlinkSync filePath))
    (fun _ => ret tt).

(** The [try] block of [processAudioFile]. *)
Definition audio_try (filePath : JS.str) (caption : option JS.str)
    (userId : Z) (username : JS.str) (chatId : Z) : M unit :=
  statusMsg <- call (fun h => ctx_reply w h MSG_TRANSCRIBING)
                    (EReply MSG_TRANSCRIBING) ;;
  transcript <- call (fun h => transcribeVoice w h filePath)
                     (ETranscribeVoice filePath) ;;
  match JS.truthy transcript with
  | None =>
      call (fun h => api_editMessageText w h chatId (message_id statusMsg)
                       MSG_TRANSCRIPTION_FAILED)
           (EEditMessageText chatId (message_id statusMsg)
              MSG_TRANSCRIPTION_FAILED)
  | Some transcript =>
      let shown :=
        JS.lit "🎤 " ++ JS.dquote ++ displayTranscript transcript ++ JS.dquote in
      call (fun h => api_editMessageText w h chatId (message_id statusMsg)
                       shown)
           (EEditMessageText chatId (message_id statusMsg) shown) ;;
      let prompt := audio_prompt transcript caption in
      isActive <- query (session_isActive w) EIsActive ;;
      (if negb isActive
       then emit (ESetConversationTitle (title transcript))
       else ret tt) ;;
      claudeResponse <-
        call (fun h => session_sendMessageStreaming w h prompt username
                         userId chatId)
             (ESendMessageStreaming prompt username userId chatId) ;;
      call (fun h => auditLog w h userId username (JS.lit "AUDIO") transcript
                       claudeResponse)
           (EAuditLog userId username (JS.lit "AUDIO") transcript
               claudeResponse)
  end.

(** [processAudioFile(ctx, filePath, caption, userId, username, chatId)] *)
Definition processAudioFile (ctx : Context) (filePath : JS.str)
    (caption : option JS.str) (userId : Z) (username : JS.str)
    (chatId : Z) : M unit :=
  if negb (TRANSCRIPTION_AVAILABLE cfg) then
    _ <- call (fun h => ctx_reply w h MSG_NOT_CONFIGURED)
              (EReply MSG_NOT_CONFIGURED) ;;
    ret tt
  else
    emit EStartProcessing ;;
    emit EStartTypingIndicator ;;
    try_finally
      (try_catch (audio_try filePath caption userId username chatId)
                 audio_catch)
      (audio_finally filePath).

(** The [try] block of [handleAudio] that downloads the file. *)
Definition audio_download (ctx : Context) (audio : Audio) : M JS.str :=
  file <- call (ctx_getFile w) EGetFile ;;
  timestamp <- query (Date_now w) EDateNow ;;
  let ext := audio_ext (audio_file_name audio) in
  let audioPath :=
    TEMP_DIR cfg ++ JS.lit "/audio_" ++ JS.of_N timestamp ++ [JS.dot] ++ ext in
  response <- call (fun h => fetch w h (file_url ctx file))
                   (EFetch (file_url ctx file)) ;;
  buffer <- call (fun h => response_arrayBuffer w h response)
                 EArrayBuffer ;;
  call (fun h => Bun_write w h audioPath buffer)
       (EBunWrite audioPath buffer) ;;
  ret audioPath.

(** [handleAudio(ctx)] *)
Definition handleAudio (ctx : Context) : M unit :=
  let userId := option_map user_id (ctx_from ctx) in
  let username :=
    JS.or_else
      match ctx_from ctx with Some u => user_username u | None => None end
      (JS.lit "unknown") in
  let chatId := option_map chat_id (ctx_chat ctx) in
  let audio :=
    match ctx_message ctx with Some m => msg_audio m | None => None end in
  match JS.truthy_num userId, JS.truthy_num chatId, audio with
  | Some userId, Some chatId, Some audio =>
      if negb (isAuthorized userId (ALLOWED_USERS cfg)) then
        _ <- call (fun h => ctx_reply w h MSG_UNAUTHORIZED)
                  (EReply MSG_UNAUTHORIZED) ;;
        ret tt
      else
        limit <- query (fun h => rateLimiter_check w h userId)
                       (fun r => ERateLimiterCheck userId (fst r) (snd r)) ;;
        let '(allowed, retryAfter) := limit in
        if negb allowed then rate_limited userId username retryAfter
        else
          downloaded <-
            try_catch
              (audioPath <- audio_download ctx audio ;;
               ret (Some audioPath))
              (fun _ =>
                 _ <- call (fun h => ctx_reply w h MSG_AUDIO_DOWNLOAD_FAILED)
                           (EReply MSG_AUDIO_DOWNLOAD_FAILED) ;;
                 ret None) ;;
          match downloaded with
          | None => ret tt
          | Some audioPath =>
              processAudioFile ctx audioPath (message_caption ctx)
                userId username chatId
          end
  | _, _, _ => ret tt
  end.

End Handlers.

(* ------------------------------------------------------------------ *)
(** ** video.ts *)

(** [MAX_VIDEO_SIZE = 50 * 1024 * 1024] *)
Definition MAX_VIDEO_SIZE : Z := 50 * 1024 * 1024.

(** [ctx.message?.video || ctx.message?.video_note] *)
Definition video_of (ctx : Context) : option Video :=
  match ctx_message ctx with
  | Some m =>
      match msg_video m with
      | Some v => Some v
      | None => msg_video_note m
      end
  | None => None
  end.

(** [video.file_size && video.file_size > MAX_VIDEO_SIZE] *)
Definition too_large (video : Video) : bool :=
  match JS.truthy_num (video_file_size video) with
  | Some size => Z.ltb MAX_VIDEO_SIZE size
  | None => false
  end.

(** [`❌ Video too large. Maximum size is ${MAX_VIDEO_SIZE / 1024 / 1024}MB.`] *)
Definition MSG_TOO_LARGE : JS.str :=
  (JS.lit "❌ Video too large. Maximum size is ")
  ++ JS.of_N (Z.to_N (MAX_VIDEO_SIZE / 1024 / 1024)) ++ JS.lit "MB.".

Definition MSG_DOWNLOADING : JS.str := JS.lit "📹 Downloading video...".
Definition MSG_VIDEO_DOWNLOAD_FAILED : JS.str :=
    JS.lit "❌ Failed to download video.".
Definition MSG_PROCESSING : JS.str := JS.lit "📹 Processing video...".

(** The two prompt templates of [handleVideo]. *)
Definition video_prompt (videoPath : JS.str) (caption : option JS.str)
  : JS.str :=
  match JS.truthy caption with
  | Some caption =>
      JS.lit "Here's a video file at path: " ++ videoPath ++ JS.nl ++ JS.nl
      ++ JS.lit "User says: " ++ caption
  | None =>
      JS.lit "I've received a video file at path: " ++ videoPath ++ JS.nl ++
          JS.nl
      ++ JS.lit "Please transcribe it for me."
  end.

Section VideoHandler.

Variable cfg : Config.
Variable w : World.

(** [downloadVideo(ctx)] *)
Definition downloadVideo (ctx : Context) : M JS.str :=
  match video_of ctx with
  | None => throw (JS.lit "Error: No video in message")
  | Some _ =>
      file <- call (ctx_getFile w) EGetFile ;;
      timestamp <- query (Date_now w) EDateNow ;;
      let extension :=
        match ctx_message ctx with
        | Some {| msg_video_note := Some _ |} => (JS.lit "mp4")
        | _ => (JS.lit "mp4")
        end in
      let videoPath :=
        TEMP_DIR cfg ++ JS.lit "/video_" ++ JS.of_N timestamp ++ [JS.dot] ++
            extension in
      response <- call (fun h => fetch w h (file_url ctx file))
                       (EFetch (file_url ctx file)) ;;
      buffer <- call (fun h => response_arrayBuffer w h response)
                     EArrayBuffer ;;
      call (fun h => Bun_write w h videoPath buffer)
           (EBunWrite videoPath buffer) ;;
      ret videoPath
  end.

(** [try { await ctx.api.deleteMessage(...) } catch { }] *)
Definition delete_status (statusMsg : SentMessage) : M unit :=
  try_catch
    (call (fun h => api_deleteMessage w h (sent_chat_id statusMsg)
                      (message_id statusMsg))
          (EDeleteMessage (sent_chat_id statusMsg) (message_id statusMsg)))
    (fun _ => ret tt).

(** The [try] block of step 5 of [handleVideo]. *)
Definition video_try (statusMsg : SentMessage) (videoPath : JS.str)
    (caption : option JS.str) (userId : Z) (username : JS.str)
    (chatId : Z) : M unit :=
  call (fun h => api_editMessageText w h chatId (message_id statusMsg)
                   MSG_PROCESSING)
       (EEditMessageText chatId (message_id statusMsg) MSG_PROCESSING) ;;
  let prompt := video_prompt videoPath caption in
  isActive <- query (session_isActive w) EIsActive ;;
  (if negb isActive
   then
     let rawTitle := JS.or_else caption (JS.lit "[Video]") in
     emit (ESetConversationTitle (title rawTitle))
   else ret tt) ;;
  response <-
    call (fun h => session_sendMessageStreaming w h prompt username userId
                     chatId)
         (ESendMessageStreaming prompt username userId chatId) ;;
  call (fun h => auditLog w h userId username (JS.lit "VIDEO")
                   (JS.or_else caption (JS.lit "[video]")) response)
       (EAuditLog userId username (JS.lit "VIDEO")
           (JS.or_else caption (JS.lit "[video]"))
          response) ;;
  delete_status statusMsg.

(** The [catch] block of step 5 of [handleVideo];
    [handleProcessingError] lives in [./media-group]. *)
Definition video_catch (statusMsg : SentMessage) (error : JS.str) : M unit :=
  delete_status statusMsg ;;
  call (fun h => handleProcessingError w h error)
       (EHandleProcessingError error).

(** The [finally] block of step 5 of [handleVideo]. *)
Definition video_finally : M unit :=
  emit EStopProcessing ;;
  emit ETypingStop.

(** [handleVideo(ctx)] *)
Definition handleVideo (ctx : Context) : M unit :=
  let userId := option_map user_id (ctx_from ctx) in
  let username :=
    JS.or_else
      match ctx_from ctx with Some u => user_username u | None => None end
      (JS.lit "unknown") in
  let chatId := option_map chat_id (ctx_chat ctx) in
  let video := video_of ctx in
  let caption := message_caption ctx in
  match JS.truthy_num userId, JS.truthy_num chatId, video with
  | Some userId, Some chatId, Some video =>
      if negb (isAuthorized userId (ALLOWED_USERS cfg)) then
        _ <- call (fun h => ctx_reply w h MSG_UNAUTHORIZED)
                  (EReply MSG_UNAUTHORIZED) ;;
        ret tt
      else if too_large video then
        _ <- call (fun h => ctx_reply w h MSG_TOO_LARGE)
                  (EReply MSG_TOO_LARGE) ;;
        ret tt
      else
        limit <- query (fun h => rateLimiter_check w h userId)
                       (fun r => ERateLimiterCheck userId (fst r) (snd r)) ;;
        let '(allowed, retryAfter) := limit in
        if negb allowed then rate_limited w userId username retryAfter
        else
          statusMsg <- call (fun h => ctx_reply w h MSG_DOWNLOADING)
                            (EReply MSG_DOWNLOADING) ;;
          downloaded <-
            try_catch
              (videoPath <- downloadVideo ctx ;; ret (Some videoPath))
              (fun _ =>
                 call (fun h => api_editMessageText w h chatId
                                  (message_id statusMsg)
                                  MSG_VIDEO_DOWNLOAD_FAILED)
                      (EEditMessageText chatId (message_id statusMsg)
                         MSG_VIDEO_DOWNLOAD_FAILED) ;;
                 ret None) ;;
          match downloaded with
          | None => ret tt
          | Some videoPath =>
              emit EStartProcessing ;;
              emit EStartTypingIndicator ;;
              try_finally
                (try_catch
                   (video_try statusMsg videoPath caption userId username
                      chatId)
                   (video_catch statusMsg))
                video_finally
          end
  | _, _, _ => ret tt
  end.

End VideoHandler.

(* ------------------------------------------------------------------ *)
(** ** Observations on traces *)

Definition is_start (e : Event) : bool :=
  match e with EStartProcessing => true | _ => false end.
Definition is_stop (e : Event) : bool :=
  match e with EStopProcessing => true | _ => false end.
Definition is_rate_check (e : Event) : bool :=
  match e with ERateLimiterCheck _ _ _ => true | _ => false end.
Definition is_audit (e : Event) : bool :=
  match e with
  | EAuditLog _ _ _ _ _ _ | EAuditLogRateLimit _ _ _ _ => true
  | _ => false
  end.
(** The calls that make up a download: resolving the file, fetching it,
    reading the body, writing the scratch file. *)
Definition is_download (e : Event) : bool :=
  match e with
  | EGetFile _ | EFetch _ _ | EArrayBuffer _ | EBunWrite _ _ _ => true
  | _ => false
  end.
Definition is_stream (e : Event) : bool :=
  match e with ESendMessageStreaming _ _ _ _ _ => true | _ => false end.
Definition is_set_title (e : Event) : bool :=
  match e with ESetConversationTitle _ => true | _ => false end.
Definition is_transcribe (e : Event) : bool :=
  match e with ETranscribeVoice _ _ => true | _ => false end.

Definition count (p : Event -> bool) (t : Trace) : nat :=
  List.length (filter p t).

(** The texts passed to [ctx.reply], in order. *)
Fixpoint replies (t : Trace) : list JS.str :=
  match t with
  | [] => []
  | EReply text _ :: t' => text :: replies t'
  | _ :: t' => replies t'
  end.

(** The paths passed to [Bun.write], in order. *)
Fixpoint written (t : Trace) : list JS.str :=
  match t with
  | [] => []
  | EBunWrite path _ _ :: t' => path :: written t'
  | _ :: t' => written t'
  end.

(** The events after the first [sendMessageStreaming] call. *)
Fixpoint after_stream (t : Trace) : Trace :=
  match t with
  | [] => []
  | ESendMessageStreaming _ _ _ _ _ :: t' => t'
  | _ :: t' => after_stream t'
  end.

(** The events after the first [session.startProcessing()]. *)
Fixpoint after_start (t : Trace) : Trace :=
  match t with
  | [] => []
  | EStartProcessing :: t' => t'
  | _ :: t' => after_start t'
  end.

Definition is_inactive_read (e : Event) : bool :=
  match e with EIsActive false => true | _ => false end.

(** The events of several runs made one after the other: each starts in
    the history the earlier ones have left, however they ended. *)
Fixpoint run_turns (turns : list (M unit)) (h : Trace) : Trace :=
  match turns with
  | [] => []
  | m :: later =>
      let t := snd (m h) in
      t ++ run_turns later (h ++ t)
  end.

(** [p] occurs in [s] as a contiguous substring. *)
Definition contains (s p : JS.str) : Prop :=
  exists a b, s = a ++ p ++ b.

(** An update the audio handler acts on: sender, chat and audio present
    (the guard [!userId || !chatId || !audio] does not fire). *)
Definition audio_event (ctx : Context) (u : User) (c : Chat) (m : Message)
    (a : Audio) : Prop :=
  ctx_from ctx = Some u /\ user_id u <> 0 /\
  ctx_chat ctx = Some c /\ chat_id c <> 0 /\
  ctx_message ctx = Some m /\ msg_audio m = Some a.

(** An update the video handler acts on: sender, chat and a video or
    video note present. *)
Definition video_event (ctx : Context) (u : User) (c : Chat) (v : Video)
  : Prop :=
  ctx_from ctx = Some u /\ user_id u <> 0 /\
  ctx_chat ctx = Some c /\ chat_id c <> 0 /\
  video_of ctx = Some v.

(** The whole run is one call: the reply with the denial text. *)
Definition denied (t : Trace) : Prop :=
  (exists out, t = [EReply MSG_UNAUTHORIZED out]) /\
  replies t = [MSG_UNAUTHORIZED] /\
  count is_download t = 0%nat /\
  count is_rate_check t = 0%nat /\
  count is_audit t = 0%nat.

(** [m] is a call of one of the three entry points. *)
Definition invocation (cfg : Config) (w : World) (m : M unit) : Prop :=
  (exists ctx, m = handleAudio cfg w ctx) \/
  (exists ctx, m = handleVideo cfg w ctx) \/
  (exists ctx filePath caption userId username chatId,
     m = processAudioFile cfg w ctx filePath caption userId username chatId).

(** A concrete configuration, world and updates to run the handlers on. *)
Module Sample.

Definition sent : SentMessage := {| message_id := 100; sent_chat_id := 9 |}.

Definition file : File := {| file_path := Some (JS.lit "music/file_3.oga") |}.

Definition world (transcript : Outcome (option JS.str))
    (stream : Outcome JS.str) (wasInterrupt active : bool)
    (limit : bool * option Q) : World :=
  {| ctx_reply := fun _ _ => Returned sent;
     api_editMessageText := fun _ _ _ _ => Returned tt;
     api_deleteMessage := fun _ _ _ => Returned tt;
     ctx_getFile := fun _ => Returned file;
     Date_now := fun _ => 1700000000000%N;
     fetch := fun _ _ => Returned [];
     response_arrayBuffer := fun _ body => Returned body;
     Bun_write := fun _ _ _ => Returned tt;
     unlinkSync := fun _ _ => Returned tt;
     rateLimiter_check := fun _ _ => limit;
     auditLogRateLimit := fun _ _ _ _ => Returned tt;
     auditLog := fun _ _ _ _ _ _ => Returned tt;
     transcribeVoice := fun _ _ => transcript;
     session_isActive := fun _ => active;
     session_sendMessageStreaming := fun _ _ _ _ _ => stream;
     session_consumeInterruptFlag := fun _ => wasInterrupt;
     handleProcessingError := fun _ _ => Returned tt;
     toFixed1 := fun _ => (JS.lit "1.5") |}.

(** Transcription and streaming succeed, nobody is throttled. *)
Definition calm : World :=
  world (Returned (Some (JS.lit "hello world"))) (Returned (JS.lit "hi")) false
      false
        (true, None).

Definition cfg (available : bool) : Config :=
  {| ALLOWED_USERS := [7];
     TEMP_DIR := (JS.lit "/tmp/bot");
     TRANSCRIPTION_AVAILABLE := available |}.

Definition alice : User :=
  {| user_id := 7; user_username := Some (JS.lit "alice") |}.
Definition mallory : User :=
  {| user_id := 8; user_username := Some (JS.lit "mallory") |}.
Definition chat : Chat := {| chat_id := 9 |}.

Definition audio_ctx (from : User) (file_name caption : option JS.str)
  : Context :=
  {| ctx_from := Some from;
     ctx_chat := Some chat;
     ctx_message :=
       Some {| msg_audio := Some {| audio_file_name := file_name |};
               msg_video := None;
               msg_video_note := None;
               msg_caption := caption |};
     api_token := (JS.lit "TOKEN") |}.

Definition video_ctx (from : User) (file_size : option Z)
    (caption : option JS.str) : Context :=
  {| ctx_from := Some from;
     ctx_chat := Some chat;
     ctx_message :=
       Some {| msg_audio := None;
               msg_video := Some {| video_file_size := file_size |};
               msg_video_note := None;
               msg_caption := caption |};
     api_token := (JS.lit "TOKEN") |}.

(** The streaming call fails with a genuine error. *)
Definition reset : World :=
  world (Returned (Some (JS.lit "hello world")))
      (Raised (JS.lit "Error: connection reset"))
        false false (true, None).

(** [processAudioFile] on a downloaded file while streaming fails. *)
Definition reset_run : M unit :=
  processAudioFile (cfg true) reset (audio_ctx alice None None)
    (JS.lit "/tmp/bot/audio_1.mp3") None 7 (JS.lit "alice") 9.

(** Transcription yields nothing. *)
Definition silent : World :=
  world (Returned None) (Returned (JS.lit "hi")) false false (true, None).

(** [processAudioFile] on a downloaded file while transcription fails. *)
Definition silent_run : M unit :=
  processAudioFile (cfg true) silent (audio_ctx alice None None)
    (JS.lit "/tmp/bot/audio_1.mp3") None 7 (JS.lit "alice") 9.

(** A string of [n] copies of ["a"]. *)
Fixpoint letters (n : nat) : JS.str :=
  match n with
  | O => []
  | S n' => 97%N :: letters n'
  end.

(** A transcript of 6000 characters. *)
Definition transcript_B : JS.str := letters (60 * 100).

(** Scenario B: a 6000-character transcript and the caption
    ["summarize"]. *)
Definition scenario_B_run : M unit :=
  processAudioFile (cfg true)
    (world (Returned (Some transcript_B)) (Returned (JS.lit "hi")) false false
           (true, None))
    (audio_ctx alice None (Some (JS.lit "summarize")))
    (JS.lit "/tmp/bot/audio_1.mp3") (Some (JS.lit "summarize")) 7
        (JS.lit "alice") 9.

End Sample.

(* ------------------------------------------------------------------ *)
(** ** Further observations on traces *)

Definition is_typing_start (e : Event) : bool :=
  match e with EStartTypingIndicator => true | _ => false end.
Definition is_typing_stop (e : Event) : bool :=
  match e with ETypingStop => true | _ => false end.
Definition is_unlink (e : Event) : bool :=
  match e with EUnlinkSync _ _ => true | _ => false end.
Definition is_delete (e : Event) : bool :=
  match e with EDeleteMessage _ _ _ => true | _ => false end.
Definition is_content_audit (e : Event) : bool :=
  match e with EAuditLog _ _ _ _ _ _ => true | _ => false end.
Definition is_throttle_audit (e : Event) : bool :=
  match e with EAuditLogRateLimit _ _ _ _ => true | _ => false end.

(** A step of a download that threw. *)
Definition is_failed_download (e : Event) : bool :=
  match e with
  | EGetFile (Raised _) | EFetch _ (Raised _) | EArrayBuffer (Raised _)
  | EBunWrite _ _ (Raised _) => true
  | _ => false
  end.

(** The last event of a trace. *)
Definition last_event (t : Trace) : option Event :=
  List.last (map Some t) None.

(** [ctx.from?.username || "unknown"] *)
Definition username_of (ctx : Context) : JS.str :=
  JS.or_else
    match ctx_from ctx with Some u => user_username u | None => None end
    (JS.lit "unknown").

(** The update has no usable sender: [ctx.from] is missing or its id is
    [0], so that [!userId] holds. *)
Definition no_sender (ctx : Context) : Prop :=
  ctx_from ctx = None \/ exists u, ctx_from ctx = Some u /\ user_id u = 0.

(** The update has no usable chat, so that [!chatId] holds. *)
Definition no_chat (ctx : Context) : Prop :=
  ctx_chat ctx = None \/ exists c, ctx_chat ctx = Some c /\ chat_id c = 0.

(** The message carries no audio. *)
Definition no_audio (ctx : Context) : Prop :=
  forall m, ctx_message ctx = Some m -> msg_audio m = None.

(** The text of the throttling reply. *)
Definition throttle_text (w : World) (r : Q) : JS.str :=
  JS.lit "⏳ Rate limited. Please wait " ++ toFixed1 w r ++ JS.lit " seconds.".

(** More worlds to run the handlers on. *)
Module Cases.

(** The limiter refuses, with or without a waiting time. *)
Definition throttled (retryAfter : option Q) : World :=
  Sample.world (Returned (Some (JS.lit "hello world"))) (Returned (JS.lit "hi"))
      false false
    (false, retryAfter).

(** [getFile] fails; everything else is as in [Sample.calm]. *)
Definition offline : World :=
  {| ctx_reply := ctx_reply Sample.calm;
     api_editMessageText := api_editMessageText Sample.calm;
     api_deleteMessage := api_deleteMessage Sample.calm;
     ctx_getFile := fun _ => Raised (JS.lit "Error: network");
     Date_now := Date_now Sample.calm;
     fetch := fetch Sample.calm;
     response_arrayBuffer := response_arrayBuffer Sample.calm;
     Bun_write := Bun_write Sample.calm;
     unlinkSync := unlinkSync Sample.calm;
     rateLimiter_check := rateLimiter_check Sample.calm;
     auditLogRateLimit := auditLogRateLimit Sample.calm;
     auditLog := auditLog Sample.calm;
     transcribeVoice := transcribeVoice Sample.calm;
     session_isActive := session_isActive Sample.calm;
     session_sendMessageStreaming := session_sendMessageStreaming Sample.calm;
     session_consumeInterruptFlag := session_consumeInterruptFlag Sample.calm;
     handleProcessingError := handleProcessingError Sample.calm;
     toFixed1 := toFixed1 Sample.calm |}.

(** An update without a sender. *)
Definition anonymous : Context :=
  {| ctx_from := None;
     ctx_chat := Some Sample.chat;
     ctx_message :=
       Some {| msg_audio := Some {| audio_file_name := None |};
               msg_video := Some {| video_file_size := None |};
               msg_video_note := None;
               msg_caption := None |};
     api_token := (JS.lit "TOKEN") |}.

End Cases.

(* ------------------------------------------------------------------ *)
(** ** Running a handler path by path *)

(** Weak-head reduction of a run, unfolding the handlers and the monad
    only: it stops at the first answer the run needs from the world. *)
Ltac head_red T :=
  eval lazy head beta iota zeta delta
    [handleAudio handleVideo processAudioFile audio_try audio_catch
     audio_finally audio_download downloadVideo delete_status video_try
     video_catch video_finally rate_limited
     bind call query emit ret throw try_catch try_finally
     fst snd option_map negb JS.truthy_num] in T.

Ltac head_scrutinee T :=
  lazymatch T with
  | match ?x with _ => _ end => head_scrutinee x
  | (match ?x with _ => _ end) _ => head_scrutinee x
  | _ => T
  end.

(** Hypotheses [Some x = Some y] left by a split are turned into
    substitutions. *)
Ltac tidy :=
  repeat match goal with
         | H : Some _ = Some _ |- _ => injection H as H
         end;
  subst.

(** One step: the run is waiting for an answer.  Use the answer the
    hypotheses fix, or else split on it. *)
Ltac run_step :=
  lazymatch goal with
  | |- _ = ?T -> _ =>
      let T' := head_red T in
      let s := head_scrutinee T' in
      lazymatch s with
      | (_, _) => fail
      | _ =>
          change T with T';
          first [ match goal with H : s = _ |- _ => rewrite H end
                | destruct s eqn:?; tidy ]
      end
  end.

Ltac run_all :=
  repeat run_step;
  let H := fresh in
  intros H;
  cbv beta iota zeta delta
    [handleAudio handleVideo processAudioFile audio_try audio_catch
     audio_finally audio_download downloadVideo delete_status video_try
     video_catch video_finally rate_limited
     bind call query emit ret throw try_catch try_finally
     fst snd option_map negb JS.truthy_num] in H;
  cbn [app] in H;
  subst.

(** Replace the run [T] by each of its possible results. *)
Ltac run T :=
  unfold trace_of, outcome_of in *;
  let r := fresh "r" in
  let Hr := fresh "Hr" in
  remember T as r eqn:Hr in *; revert Hr; run_all; cbn [fst snd] in *.

(** [H : In e t] on an explicit trace [t] that does not hold [e]. *)
Ltac no_such_event H :=
  cbn [In] in H;
  repeat (destruct H as [H|H]; [discriminate H|]);
  exact H.

(** [H : In e t] on an explicit trace [t]: one goal for every event of
    [t] that can be [e], with the two identified. *)
Ltac find_event H :=
  cbn [In] in H;
  repeat (destruct H as [H|H];
          [first [discriminate H | injection H as H; tidy] |]);
  try contradiction.

(** [In e t] for an event [e] that stands in the explicit trace [t]. *)
Ltac event_here :=
  cbn [In]; solve [repeat first [left; reflexivity | right]].

Tactic Notation "count_now" :=
  cbv [count filter List.length is_start is_stop is_rate_check is_audit
       is_download is_stream is_set_title is_transcribe after_start
       after_stream replies written].
Tactic Notation "count_now" "in" hyp(H) :=
  cbv [count filter List.length is_start is_stop is_rate_check is_audit
       is_download is_stream is_set_title is_transcribe after_start
       after_stream replies written] in H.

(** [count] for the further observations. *)
Tactic Notation "count_more" :=
  cbv [count filter List.length is_start is_stop is_rate_check is_audit
       is_download is_stream is_set_title is_transcribe after_start
       after_stream replies written is_typing_start is_typing_stop
       is_unlink is_delete is_content_audit is_throttle_audit
       is_failed_download last_event List.last map].
Tactic Notation "count_more" "in" hyp(H) :=
  cbv [count filter List.length is_start is_stop is_rate_check is_audit
       is_download is_stream is_set_title is_transcribe after_start
       after_stream replies written is_typing_start is_typing_stop
       is_unlink is_delete is_content_audit is_throttle_audit
       is_failed_download last_event List.last map] in H.

(** Split a [no_sender] or [no_chat] hypothesis into the answers it fixes. *)
Ltac use_guard H :=
  match type of H with
  | no_sender _ => destruct H as [H | (?u & H & ?Hz)]
  | no_chat _ => destruct H as [H | (?c & H & ?Hz)]
  end;
  try match goal with Hz : _ = 0 |- _ => apply Z.eqb_eq in Hz end.

(* ------------------------------------------------------------------ *)
(** ** Facts about the string primitives *)

Section StringFacts.

(** [JS.lit] on the basic plane and beyond it. *)
Lemma lit_code_units :
  JS.lit "abc" = [97; 98; 99]%N /\
  JS.lit "❌" = [10060%N] /\
  JS.lit "…" = [8230%N] /\
  JS.lit "🎤" = [55356; 57252]%N /\
  List.length (JS.lit "Напомни мне завтра утром купить молоко, хлеб") = 44%nat.
Proof. repeat split. Qed.

Lemma length_append (a b : JS.str) :
  List.length (a ++ b) = (List.length a + List.length b)%nat.
Proof. induction a as [|x a IH]; simpl; [reflexivity | now rewrite IH]. Qed.

Lemma eqb_eq (a b : JS.str) : JS.eqb a b = true <-> a = b.
Proof.
  revert b; induction a as [|x a IH]; intros [|y b]; simpl;
    try (split; [discriminate | discriminate]); [tauto|].
  rewrite andb_true_iff, N.eqb_eq, IH. split.
  - now intros [-> ->].
  - intros H. now inversion H.
Qed.

Lemma prefix_iff (p s : JS.str) :
  JS.prefix p s = true <-> exists b, s = p ++ b.
Proof.
  revert s; induction p as [|c p IH]; intros [|d s]; simpl.
  - split; [intros _; now exists [] | reflexivity].
  - split; [intros _; now exists (d :: s) | reflexivity].
  - split; [discriminate | now intros [b Hb]].
  - rewrite andb_true_iff, N.eqb_eq, IH. split.
    + intros [-> [b ->]]. now exists b.
    + intros [b Hb]. inversion Hb. split; [reflexivity | now exists b].
Qed.

Lemma includes_nil (p : JS.str) :
  JS.includes [] p = JS.prefix p [] || false.
Proof. reflexivity. Qed.

Lemma includes_cons (c : N) (s p : JS.str) :
  JS.includes (c :: s) p = JS.prefix p (c :: s) || JS.includes s p.
Proof. reflexivity. Qed.

(** [includes] is substring containment. *)
Lemma includes_spec (s p : JS.str) :
  JS.includes s p = true <-> contains s p.
Proof.
  unfold contains. induction s as [|c s IH].
  - rewrite includes_nil, orb_true_iff, prefix_iff. split.
    + intros [[b Hb]|Hf]; [now exists [], b | discriminate].
    + intros (a & b & Hab). left. destruct a; [now exists b|discriminate].
  - rewrite includes_cons, orb_true_iff, prefix_iff, IH. split.
    + intros [[b Hb]|(a & b & Hab)].
      * now exists [], b.
      * exists (c :: a), b. simpl. now rewrite Hab.
    + intros (a & b & Hab). destruct a as [|x a]; simpl in Hab.
      * left. now exists b.
      * right. inversion Hab. now exists a, b.
Qed.

Lemma includes_false (s p : JS.str) :
  JS.includes s p = false <-> ~ contains s p.
Proof.
  rewrite <- includes_spec. destruct (JS.includes s p); split; intros H.
  - discriminate.
  - now exfalso; apply H.
  - discriminate.
  - reflexivity.
Qed.

Lemma slice0_length (n : nat) (s : JS.str) :
  List.length (JS.slice0 n s) = Nat.min n (List.length s).
Proof.
  unfold JS.slice0. revert s; induction n as [|n IH]; intros [|c s]; simpl;
    try reflexivity. now rewrite IH.
Qed.

(** [slice(0, n)] is the prefix of at most [n] characters. *)
Lemma slice0_prefix (n : nat) (s : JS.str) :
  exists rest, s = JS.slice0 n s ++ rest.
Proof.
  exists (skipn n s). unfold JS.slice0. symmetry. apply firstn_skipn.
Qed.

Lemma slice0_all (n : nat) (s : JS.str) :
  (List.length s <= n)%nat -> JS.slice0 n s = s.
Proof.
  unfold JS.slice0. revert s; induction n as [|n IH]; intros [|c s]; simpl;
    intros H; try reflexivity; [lia | rewrite IH; [reflexivity | lia]].
Qed.

Lemma split_not_nil (sep : N) (s : JS.str) : JS.split sep s <> [].
Proof.
  destruct s as [|c s]; simpl; [discriminate|].
  destruct (N.eqb c sep); [discriminate|].
  destruct (JS.split sep s); discriminate.
Qed.

Lemma pop_cons (x : JS.str) (l : list JS.str) :
  l <> [] -> JS.pop (x :: l) = JS.pop l.
Proof. destruct l; [contradiction | reflexivity]. Qed.

(** A name without a dot is its own last segment. *)
Lemma split_no_dot (s : JS.str) :
  JS.includes s [JS.dot] = false -> JS.split JS.dot s = [s].
Proof.
  induction s as [|c s IH]; [reflexivity|].
  rewrite includes_cons, orb_false_iff. intros [Hp Hs].
  cbn [JS.prefix] in Hp. rewrite andb_false_iff in Hp.
  cbn [JS.split]. rewrite (N.eqb_sym c JS.dot).
  destruct Hp as [Hp | Hp]; [rewrite Hp | destruct s; discriminate Hp].
  now rewrite (IH Hs).
Qed.

Lemma split_dot_two (a b : JS.str) :
  (2 <= List.length (JS.split JS.dot (a ++ [JS.dot] ++ b)))%nat.
Proof.
  induction a as [|c a IH]; cbn [app JS.split].
  - rewrite N.eqb_refl. pose proof (split_not_nil JS.dot b).
    destruct (JS.split JS.dot b); simpl; [contradiction | lia].
  - destruct (N.eqb c JS.dot); cbn [app] in IH; [simpl; lia|].
    destruct (JS.split JS.dot (a ++ JS.dot :: b)); simpl in *; lia.
Qed.

(** Only the text after the last dot matters to [split(".").pop()]. *)
Lemma pop_split_dot (a b : JS.str) :
  JS.pop (JS.split JS.dot (a ++ [JS.dot] ++ b)) = JS.pop (JS.split JS.dot b).
Proof.
  induction a as [|c a IH]; cbn [app JS.split].
  - rewrite N.eqb_refl. apply pop_cons, split_not_nil.
  - destruct (N.eqb c JS.dot).
    + rewrite pop_cons; [exact IH | apply split_not_nil].
    + pose proof (split_dot_two a b) as H2. cbn [app] in H2, IH.
      destruct (JS.split JS.dot (a ++ JS.dot :: b)) as [|seg [|seg' rest]];
        simpl in H2; try lia.
      exact IH.
Qed.

End StringFacts.

(* ------------------------------------------------------------------ *)
(** ** Properties of the handlers *)

(** C3. Whenever a handler (audio or video, or [processAudioFile] called
    directly) acquires the processing lock with [session.startProcessing()],
    it does so once, and the release callback is invoked exactly once, after
    the acquisition, whatever the collaborators answer: in particular when
    [sendMessageStreaming] raises. *)
Theorem C3_release_exactly_once (cfg : Config) (w : World) (ctx : Context)
    (filePath : JS.str) (caption : option JS.str) (userId : Z)
    (username : JS.str) (chatId : Z) (m : M unit) :
  m = handleAudio cfg w ctx \/ m = handleVideo cfg w ctx \/
  m = processAudioFile cfg w ctx filePath caption userId username chatId ->
  In EStartProcessing (trace_of m) ->
  count is_start (trace_of m) = 1%nat /\
  count is_stop (trace_of m) = 1%nat /\
  count is_stop (after_start (trace_of m)) = 1%nat.
Proof.
  intros [-> | [-> | ->]] Hin.
  - run (handleAudio cfg w ctx []); cbn [In] in Hin; count_now;
      first [ now repeat split | exfalso; no_such_event Hin ].
  - run (handleVideo cfg w ctx []); cbn [In] in Hin; count_now;
      first [ now repeat split | exfalso; no_such_event Hin ].
  - run (processAudioFile cfg w ctx filePath caption userId username chatId []);
      cbn [In] in Hin; count_now;
      first [ now repeat split | exfalso; no_such_event Hin ].
Qed.

Lemma C3_release_exactly_once_witness :
  count is_start (trace_of Sample.reset_run) = 1%nat /\
  count is_stop (trace_of Sample.reset_run) = 1%nat /\
  count is_stop (after_start (trace_of Sample.reset_run)) = 1%nat.
Proof.
  apply (C3_release_exactly_once (Sample.cfg true) Sample.reset
           (Sample.audio_ctx Sample.alice None None)
           (JS.lit "/tmp/bot/audio_1.mp3") None 7 (JS.lit "alice") 9).
  - right; right; reflexivity.
  - vm_compute. left; reflexivity.
Defined.

Lemma isAuthorized_spec (userId : Z) (allowList : list Z) :
  isAuthorized userId allowList = true <-> In userId allowList.
Proof.
  unfold isAuthorized. rewrite existsb_exists. split.
  - intros (x & Hx & Heq). apply Z.eqb_eq in Heq. now subst.
  - intros H. exists userId. split; [exact H | apply Z.eqb_refl].
Qed.

Lemma not_authorized (userId : Z) (allowList : list Z) :
  ~ In userId allowList -> isAuthorized userId allowList = false.
Proof.
  intros H. destruct (isAuthorized userId allowList) eqn:E;
    [apply isAuthorized_spec in E; contradiction | reflexivity].
Qed.

Lemma MSG_TOO_LARGE_text :
  MSG_TOO_LARGE = JS.lit "❌ Video too large. Maximum size is 50MB.".
Proof. reflexivity. Qed.

(** C6. For a user who is not on the allow list, the audio handler and the
    video handler each perform exactly one call: the reply with the fixed
    denial text.  Hence no download, no rate-limit check (so no charge) and
    no audit record. *)
Theorem C6_unauthorized_denied (cfg : Config) (w : World) (ctx : Context)
    (u : User) (c : Chat) :
  ~ In (user_id u) (ALLOWED_USERS cfg) ->
  (forall m a, audio_event ctx u c m a ->
     denied (trace_of (handleAudio cfg w ctx))) /\
  (forall v, video_event ctx u c v ->
     denied (trace_of (handleVideo cfg w ctx))).
Proof.
  intros Hnot. apply not_authorized in Hnot. unfold denied. split.
  - intros m a (Hfrom & Huid & Hchat & Hcid & Hmsg & Haudio).
    apply Z.eqb_neq in Huid, Hcid.
    run (handleAudio cfg w ctx []); count_now;
      (split; [eexists; reflexivity | repeat split]).
  - intros v (Hfrom & Huid & Hchat & Hcid & Hvideo).
    apply Z.eqb_neq in Huid, Hcid.
    run (handleVideo cfg w ctx []); count_now;
      (split; [eexists; reflexivity | repeat split]).
Qed.

Lemma C6_unauthorized_denied_witness :
  denied (trace_of (handleAudio (Sample.cfg true) Sample.calm
                      (Sample.audio_ctx Sample.mallory None None))) /\
  denied (trace_of (handleVideo (Sample.cfg true) Sample.calm
                      (Sample.video_ctx Sample.mallory None None))).
Proof.
  split.
  - apply (proj1 (C6_unauthorized_denied (Sample.cfg true) Sample.calm
                    (Sample.audio_ctx Sample.mallory None None)
                    Sample.mallory Sample.chat
                    ltac:(simpl; intros [H|[]]; discriminate H))
             {| msg_audio := Some {| audio_file_name := None |};
                msg_video := None; msg_video_note := None;
                msg_caption := None |}
             {| audio_file_name := None |}).
    repeat split; discriminate.
  - apply (proj2 (C6_unauthorized_denied (Sample.cfg true) Sample.calm
                    (Sample.video_ctx Sample.mallory None None)
                    Sample.mallory Sample.chat
                    ltac:(simpl; intros [H|[]]; discriminate H))
             {| video_file_size := None |}).
    repeat split; discriminate.
Defined.

(** C4. A video whose declared size exceeds 50 MiB: once the sender has
    passed authorization, the only call of the handler is the reply with the
    size-exceeded text, and the handler returns when that reply is
    delivered.  For a sender who fails authorization the denial comes
    instead, so the size check sits after authorization; and in neither
    case is the rate limiter consulted, a download started or the
    processing lock taken, so the size check sits before the rate-limit
    check. *)
Theorem C4_oversized_video_rejected (cfg : Config) (w : World) (ctx : Context)
    (u : User) (c : Chat) (v : Video) (size : Z) :
  video_event ctx u c v ->
  video_file_size v = Some size ->
  MAX_VIDEO_SIZE < size ->
  MAX_VIDEO_SIZE = 50 * 1024 * 1024 /\
  MSG_TOO_LARGE = (JS.lit "❌ Video too large. Maximum size is 50MB.") /\
  (In (user_id u) (ALLOWED_USERS cfg) ->
   trace_of (handleVideo cfg w ctx)
   = [EReply MSG_TOO_LARGE (ctx_reply w [] MSG_TOO_LARGE)] /\
   (forall sent, ctx_reply w [] MSG_TOO_LARGE = Returned sent ->
      outcome_of (handleVideo cfg w ctx) = Returned tt)) /\
  (~ In (user_id u) (ALLOWED_USERS cfg) ->
   trace_of (handleVideo cfg w ctx)
   = [EReply MSG_UNAUTHORIZED (ctx_reply w [] MSG_UNAUTHORIZED)]) /\
  count is_rate_check (trace_of (handleVideo cfg w ctx)) = 0%nat /\
  count is_download (trace_of (handleVideo cfg w ctx)) = 0%nat /\
  count is_start (trace_of (handleVideo cfg w ctx)) = 0%nat.
Proof.
  intros (Hfrom & Huid & Hchat & Hcid & Hvideo) Hsize Hlt.
  apply Z.eqb_neq in Huid, Hcid.
  assert (Hlarge : too_large v = true).
  { unfold too_large, JS.truthy_num. rewrite Hsize.
    assert (Hpos : 0 < size) by (unfold MAX_VIDEO_SIZE in Hlt; lia).
    destruct (Z.eqb_spec size 0); [lia | now apply Z.ltb_lt]. }
  split; [reflexivity|]. split; [reflexivity|].
  split; [|split].
  - intros Hin. apply isAuthorized_spec in Hin.
    run (handleVideo cfg w ctx []); (split; [congruence|]);
      intros sent Hsent; congruence.
  - intros Hnot. apply not_authorized in Hnot.
    run (handleVideo cfg w ctx []); congruence.
  - run (handleVideo cfg w ctx []); count_now; repeat split.
Qed.

Lemma C4_oversized_video_rejected_witness :
  trace_of (handleVideo (Sample.cfg true) Sample.calm
              (Sample.video_ctx Sample.alice (Some (60 * 1024 * 1024)) None))
  = [EReply (JS.lit "❌ Video too large. Maximum size is 50MB.")
       (Returned Sample.sent)] /\
  count is_rate_check
    (trace_of (handleVideo (Sample.cfg true) Sample.calm
                 (Sample.video_ctx Sample.alice (Some (60 * 1024 * 1024))
                    None))) = 0%nat.
Proof.
  destruct (C4_oversized_video_rejected (Sample.cfg true) Sample.calm
              (Sample.video_ctx Sample.alice (Some (60 * 1024 * 1024)) None)
              Sample.alice Sample.chat
              {| video_file_size := Some (60 * 1024 * 1024) |}
              (60 * 1024 * 1024))
    as (_ & _ & Hauth & _ & Hrate & _).
  - repeat split; discriminate.
  - reflexivity.
  - reflexivity.
  - split; [|exact Hrate].
    apply Hauth. simpl. left; reflexivity.
Defined.

(** C10. A video whose declared size is absent or zero, from an authorized
    sender: the size gate does not fire.  The first call of the handler is
    the rate-limit check, no size-exceeded reply is sent, and when the
    limiter admits the request and the status reply is delivered the
    download begins with [getFile], whatever the file really weighs. *)
Theorem C10_undeclared_size_skips_gate (cfg : Config) (w : World)
    (ctx : Context) (u : User) (c : Chat) (v : Video) :
  video_event ctx u c v ->
  In (user_id u) (ALLOWED_USERS cfg) ->
  video_file_size v = None \/ video_file_size v = Some 0 ->
  too_large v = false /\
  (exists allowed retryAfter rest,
     trace_of (handleVideo cfg w ctx)
     = ERateLimiterCheck (user_id u) allowed retryAfter :: rest) /\
  ~ In MSG_TOO_LARGE (replies (trace_of (handleVideo cfg w ctx))) /\
  (forall retryAfter sent,
     In (ERateLimiterCheck (user_id u) true retryAfter)
        (trace_of (handleVideo cfg w ctx)) ->
     In (EReply MSG_DOWNLOADING (Returned sent))
        (trace_of (handleVideo cfg w ctx)) ->
     exists out, In (EGetFile out) (trace_of (handleVideo cfg w ctx))).
Proof.
  intros (Hfrom & Huid & Hchat & Hcid & Hvideo) Hin Hsize.
  apply Z.eqb_neq in Huid, Hcid. apply isAuthorized_spec in Hin.
  assert (Hsmall : too_large v = false).
  { unfold too_large. destruct Hsize as [-> | ->]; reflexivity. }
  split; [exact Hsmall|].
  run (handleVideo cfg w ctx []).
  all: split; [do 3 eexists; reflexivity|].
  all: split;
    [ count_now; cbn [In]; try rewrite MSG_TOO_LARGE_text;
      unfold MSG_DOWNLOADING; cbn [append]; intuition discriminate |].
  all: intros retryAfter sent Hrate Hreply.
  all: first [ exfalso; no_such_event Hrate
             | exfalso; no_such_event Hreply
             | eexists; cbn [In]; right; right; left; reflexivity ].
Qed.

Lemma C10_undeclared_size_skips_gate_witness :
  exists out,
    In (EGetFile out)
       (trace_of (handleVideo (Sample.cfg true) Sample.calm
                    (Sample.video_ctx Sample.alice None None))).
Proof.
  destruct (C10_undeclared_size_skips_gate (Sample.cfg true) Sample.calm
              (Sample.video_ctx Sample.alice None None)
              Sample.alice Sample.chat {| video_file_size := None |})
    as (_ & _ & _ & Hdownload).
  - repeat split; discriminate.
  - simpl. left; reflexivity.
  - left; reflexivity.
  - apply (Hdownload None Sample.sent).
    + vm_compute. left; reflexivity.
    + vm_compute. right; left; reflexivity.
Defined.

(** C1 as amended.  When [transcribeVoice] returns no transcript
    ([undefined], or an empty string) in [processAudioFile], the processing
    lock had been acquired before the transcription started; the handler
    edits the status message to the fixed failure marker, never calls
    [sendMessageStreaming], and leaves through the cleanup, which releases
    the lock once, stops the typing indicator and deletes the scratch
    file. *)
Theorem C1_transcription_failure_cleanup (cfg : Config) (w : World)
    (ctx : Context) (filePath : JS.str) (caption : option JS.str)
    (userId : Z) (username : JS.str) (chatId : Z)
    (transcript : option JS.str) :
  In (ETranscribeVoice filePath (Returned transcript))
     (trace_of (processAudioFile cfg w ctx filePath caption userId username
                  chatId)) ->
  JS.truthy transcript = None ->
  exists statusMsg edited handled unlinked,
    trace_of (processAudioFile cfg w ctx filePath caption userId username
                chatId)
    = ([EStartProcessing; EStartTypingIndicator;
        EReply MSG_TRANSCRIBING (Returned statusMsg);
        ETranscribeVoice filePath (Returned transcript);
        EEditMessageText chatId (message_id statusMsg)
          MSG_TRANSCRIPTION_FAILED edited]
       ++ handled
       ++ [EStopProcessing; ETypingStop; EUnlinkSync filePath unlinked])%list
    /\ (edited = Returned tt -> handled = [])
    /\ count is_start handled = 0%nat
    /\ count is_stop handled = 0%nat
    /\ count is_stream handled = 0%nat.
Proof.
  intros Hin Hfalsy.
  run (processAudioFile cfg w ctx filePath caption userId username chatId []);
    find_event Hin; try congruence.
  all: do 2 eexists.
  all: first
    [ exists []; eexists; split; [reflexivity|]
    | eexists [_]; eexists; split; [reflexivity|]
    | eexists [_; _]; eexists; split; [reflexivity|] ].
  all: count_now; repeat split; try discriminate.
Qed.

Lemma C1_transcription_failure_cleanup_witness :
  exists statusMsg edited handled unlinked,
    trace_of Sample.silent_run
    = ([EStartProcessing; EStartTypingIndicator;
        EReply MSG_TRANSCRIBING (Returned statusMsg);
        ETranscribeVoice (JS.lit "/tmp/bot/audio_1.mp3") (Returned None);
        EEditMessageText 9 (message_id statusMsg)
          MSG_TRANSCRIPTION_FAILED edited]
       ++ handled
       ++ [EStopProcessing; ETypingStop;
           EUnlinkSync (JS.lit "/tmp/bot/audio_1.mp3") unlinked])%list
    /\ (edited = Returned tt -> handled = [])
    /\ count is_start handled = 0%nat
    /\ count is_stop handled = 0%nat
    /\ count is_stream handled = 0%nat.
Proof.
  apply (C1_transcription_failure_cleanup (Sample.cfg true) Sample.silent
           (Sample.audio_ctx Sample.alice None None)
           (JS.lit "/tmp/bot/audio_1.mp3") None 7 (JS.lit "alice") 9 None).
  - vm_compute. do 3 right. left; reflexivity.
  - reflexivity.
Defined.

(** C1 as stated fails: here transcription signals failure, and the
    processing lock was acquired (before the transcription was attempted)
    and then released in the cleanup. *)
Lemma C1_lock_acquired_counterexample :
  trace_of Sample.silent_run
  = [EStartProcessing; EStartTypingIndicator;
     EReply MSG_TRANSCRIBING (Returned Sample.sent);
     ETranscribeVoice (JS.lit "/tmp/bot/audio_1.mp3") (Returned None);
     EEditMessageText 9 100 MSG_TRANSCRIPTION_FAILED (Returned tt);
     EStopProcessing; ETypingStop;
     EUnlinkSync (JS.lit "/tmp/bot/audio_1.mp3") (Returned tt)]
  /\ In (ETranscribeVoice (JS.lit "/tmp/bot/audio_1.mp3") (Returned None))
        (trace_of Sample.silent_run)
  /\ ~ count is_start (trace_of Sample.silent_run) = 0%nat.
Proof.
  split; [reflexivity|]. split.
  - vm_compute. do 3 right. left; reflexivity.
  - vm_compute. discriminate.
Qed.

(** C2 as amended.  With [TRANSCRIPTION_AVAILABLE] false,
    [processAudioFile] performs one call, the reply with the fixed
    configuration-error text: no lock, no transcription.  [handleAudio]
    reaches that check only through [processAudioFile], after the
    authorization and rate-limit gates have passed and the download has
    completed: whenever the configuration-error reply is sent by
    [handleAudio], the file has been fetched and written just before it.
    The lock is never acquired. *)
Theorem C2_not_configured (cfg : Config) (w : World) (ctx : Context) :
  TRANSCRIPTION_AVAILABLE cfg = false ->
  (forall filePath caption userId username chatId h,
     snd (processAudioFile cfg w ctx filePath caption userId username chatId h)
     = [EReply MSG_NOT_CONFIGURED (ctx_reply w h MSG_NOT_CONFIGURED)]) /\
  count is_start (trace_of (handleAudio cfg w ctx)) = 0%nat /\
  count is_transcribe (trace_of (handleAudio cfg w ctx)) = 0%nat /\
  (forall out,
     In (EReply MSG_NOT_CONFIGURED out) (trace_of (handleAudio cfg w ctx)) ->
     exists userId retryAfter file timestamp url body buffer path,
       trace_of (handleAudio cfg w ctx)
       = [ERateLimiterCheck userId true retryAfter;
          EGetFile (Returned file);
          EDateNow timestamp;
          EFetch url (Returned body);
          EArrayBuffer (Returned buffer);
          EBunWrite path buffer (Returned tt);
          EReply MSG_NOT_CONFIGURED out]).
Proof.
  intros Hoff. split; [|split; [|split]].
  - intros filePath caption userId username chatId h.
    remember (processAudioFile cfg w ctx filePath caption userId username
                chatId h) as r eqn:Hr.
    revert Hr. run_all; reflexivity.
  - run (handleAudio cfg w ctx []); reflexivity.
  - run (handleAudio cfg w ctx []); reflexivity.
  - intros out Hin.
    run (handleAudio cfg w ctx []); find_event Hin.
    all: try discriminate.
    all: repeat match goal with u : unit |- _ => destruct u end.
    all: do 8 eexists; reflexivity.
Qed.

Lemma C2_not_configured_witness :
  count is_start
    (trace_of (handleAudio (Sample.cfg false) Sample.calm
                 (Sample.audio_ctx Sample.alice (Some (JS.lit "song.mp3"))
                     None)))
  = 0%nat.
Proof.
  apply (C2_not_configured (Sample.cfg false) Sample.calm
           (Sample.audio_ctx Sample.alice (Some (JS.lit "song.mp3")) None)).
  reflexivity.
Defined.

(** C2 as stated fails: transcription is not configured, and yet the file
    is resolved, fetched and written before the configuration-error reply
    is sent. *)
Lemma C2_download_first_counterexample :
  TRANSCRIPTION_AVAILABLE (Sample.cfg false) = false /\
  trace_of (handleAudio (Sample.cfg false) Sample.calm
              (Sample.audio_ctx Sample.alice (Some (JS.lit "song.mp3")) None))
  = [ERateLimiterCheck 7 true None;
     EGetFile (Returned Sample.file);
     EDateNow 1700000000000;
     EFetch (JS.lit "https://api.telegram.org/file/botTOKEN/music/file_3.oga")
       (Returned []);
     EArrayBuffer (Returned []);
     EBunWrite (JS.lit "/tmp/bot/audio_1700000000000.mp3") [] (Returned tt);
     EReply MSG_NOT_CONFIGURED (Returned Sample.sent)] /\
  count is_download
    (trace_of (handleAudio (Sample.cfg false) Sample.calm
                 (Sample.audio_ctx Sample.alice (Some (JS.lit "song.mp3"))
                     None)))
  = 4%nat.
Proof. repeat split. Qed.

Lemma is_cancellation_spec (error : JS.str) :
  is_cancellation error = true <->
  contains error (JS.lit "abort") \/ contains error (JS.lit "cancel").
Proof.
  unfold is_cancellation. now rewrite orb_true_iff, !includes_spec.
Qed.

Lemma is_cancellation_false (error : JS.str) :
  is_cancellation error = false <->
  ~ contains error (JS.lit "abort") /\ ~ contains error (JS.lit "cancel").
Proof.
  unfold is_cancellation. now rewrite orb_false_iff, !includes_false.
Qed.

(** C5. When [sendMessageStreaming] raises in [processAudioFile] with
    description [desc] (its [String(error)]):
    - if [desc] contains ["abort"] or ["cancel"] (exact case), the
      interrupt flag is consumed; when it was set the handler sends no
      reply after the failure, when it was not set it sends exactly one
      reply, the fixed stopped notice;
    - otherwise the interrupt flag is not consumed and the handler sends
      exactly one reply after the failure: the fixed prefix followed by the
      first 200 characters of [desc]. *)
Theorem C5_streaming_failure_classified (cfg : Config) (w : World)
    (ctx : Context) (filePath : JS.str) (caption : option JS.str)
    (userId : Z) (username : JS.str) (chatId : Z) (prompt desc : JS.str) :
  In (ESendMessageStreaming prompt username userId chatId (Raised desc))
     (trace_of (processAudioFile cfg w ctx filePath caption userId username
                  chatId)) ->
  (contains desc (JS.lit "abort") \/ contains desc (JS.lit "cancel") ->
   (exists wasInterrupt,
      In (EConsumeInterruptFlag wasInterrupt)
         (trace_of (processAudioFile cfg w ctx filePath caption userId
                      username chatId))) /\
   (In (EConsumeInterruptFlag true)
       (trace_of (processAudioFile cfg w ctx filePath caption userId
                    username chatId)) ->
    replies (after_stream
               (trace_of (processAudioFile cfg w ctx filePath caption userId
                            username chatId))) = []) /\
   (In (EConsumeInterruptFlag false)
       (trace_of (processAudioFile cfg w ctx filePath caption userId
                    username chatId)) ->
    replies (after_stream
               (trace_of (processAudioFile cfg w ctx filePath caption userId
                            username chatId))) = [MSG_QUERY_STOPPED])) /\
  (~ contains desc (JS.lit "abort") /\ ~ contains desc (JS.lit "cancel") ->
   (forall wasInterrupt,
      ~ In (EConsumeInterruptFlag wasInterrupt)
          (trace_of (processAudioFile cfg w ctx filePath caption userId
                       username chatId))) /\
   replies (after_stream
              (trace_of (processAudioFile cfg w ctx filePath caption userId
                           username chatId)))
   = [MSG_ERROR_PREFIX ++ JS.slice0 200 desc] /\
   List.length (JS.slice0 200 desc) = Nat.min 200 (List.length desc) /\
   (exists rest, desc = JS.slice0 200 desc ++ rest) /\
   ((List.length desc <= 200)%nat -> JS.slice0 200 desc = desc)).
Proof.
  intros Hin.
  rewrite <- is_cancellation_spec, <- is_cancellation_false.
  run (processAudioFile cfg w ctx filePath caption userId username chatId []);
    find_event Hin.
  all: split; intros Hc; try congruence.
  all: count_now.
  all: first
    [ split; [eexists; event_here|];
      split; intros H; first [reflexivity | find_event H]
    | split; [intros b H; find_event H|];
      split; [reflexivity|];
      split; [apply slice0_length|];
      split; [apply slice0_prefix | apply slice0_all] ].
Qed.

Lemma C5_streaming_failure_classified_witness :
  replies (after_stream (trace_of Sample.reset_run))
  = [JS.lit "❌ Error: Error: connection reset"].
Proof.
  destruct (C5_streaming_failure_classified (Sample.cfg true) Sample.reset
              (Sample.audio_ctx Sample.alice None None)
              (JS.lit "/tmp/bot/audio_1.mp3") None 7 (JS.lit "alice") 9
              (JS.lit "hello world") (JS.lit "Error: connection reset"))
    as [_ Herror].
  - vm_compute. do 7 right. left; reflexivity.
  - destruct Herror as (_ & Hreply & _).
    + rewrite <- is_cancellation_false. reflexivity.
    + exact Hreply.
Defined.

Lemma title_long (raw : JS.str) :
  (50 < List.length raw)%nat ->
  title raw = JS.slice0 47 raw ++ JS.lit "..." /\
  List.length (title raw) = 50%nat.
Proof.
  intros Hlen. unfold title.
  destruct (Nat.ltb_spec 50 (List.length raw)) as [_|Hle]; [|lia].
  split; [reflexivity|].
  rewrite length_append, slice0_length.
  change (List.length (JS.lit "...")) with 3%nat. lia.
Qed.

Lemma title_short (raw : JS.str) :
  (List.length raw <= 50)%nat -> title raw = raw.
Proof.
  intros Hlen. unfold title.
  destruct (Nat.ltb_spec 50 (List.length raw)) as [Hlt|_];
    [lia | reflexivity].
Qed.

Lemma count_app (p : Event -> bool) (a b : Trace) :
  count p (a ++ b) = (count p a + count p b)%nat.
Proof. unfold count. now rewrite filter_app, length_app. Qed.

(** In one run the title is written as often as the session is found
    inactive, from whatever history the run starts. *)
Lemma title_per_turn (cfg : Config) (w : World) (m : M unit) (h : Trace) :
  invocation cfg w m ->
  count is_set_title (snd (m h)) = count is_inactive_read (snd (m h)).
Proof.
  intros [[ctx ->] | [[ctx ->] | (ctx & p & cap & uid & un & chat & ->)]].
  - remember (handleAudio cfg w ctx h) as r eqn:Hr. revert Hr.
    run_all; reflexivity.
  - remember (handleVideo cfg w ctx h) as r eqn:Hr. revert Hr.
    run_all; reflexivity.
  - remember (processAudioFile cfg w ctx p cap uid un chat h) as r eqn:Hr.
    revert Hr. run_all; reflexivity.
Qed.

Lemma title_across_turns (cfg : Config) (w : World) (turns : list (M unit)) :
  Forall (invocation cfg w) turns ->
  forall h,
    count is_set_title (run_turns turns h)
    = count is_inactive_read (run_turns turns h).
Proof.
  induction 1 as [|m later Hm _ IH]; intros h; [reflexivity|].
  cbn [run_turns]. rewrite !count_app, (title_per_turn cfg w m h Hm).
  now rewrite IH.
Qed.

(** C8. The conversation title is written only after the session has
    reported that no conversation is active, and at most once per
    invocation; when the session reports an active conversation it is not
    written at all, and when it reports none the title is written.  Over
    any sequence of invocations the title is written exactly as often as
    the session was found inactive, so at most once while the session
    reports an inactive conversation at most once.  The source of the
    title is the transcript in [processAudioFile] and the caption, or
    ["[Video]"] without one, in [handleVideo].  A source longer than 50
    characters gives a 50-character title: its first 47 characters followed
    by the 3-character ellipsis ["..."]; a source of at most 50 characters
    is the title unchanged. *)
Theorem C8_conversation_title (cfg : Config) (w : World) (ctx : Context)
    (filePath : JS.str) (caption : option JS.str) (userId : Z)
    (username : JS.str) (chatId : Z) :
  (forall raw, (50 < List.length raw)%nat ->
     title raw = JS.slice0 47 raw ++ JS.lit "..." /\
     List.length (title raw) = 50%nat) /\
  (forall raw, (List.length raw <= 50)%nat -> title raw = raw) /\
  (forall t,
     t = trace_of (processAudioFile cfg w ctx filePath caption userId
                     username chatId) \/
     t = trace_of (handleVideo cfg w ctx) ->
     (count is_set_title t <= 1)%nat /\
     (In (EIsActive true) t -> count is_set_title t = 0%nat) /\
     (forall written_title, In (ESetConversationTitle written_title) t ->
        In (EIsActive false) t /\ ~ In (EIsActive true) t)) /\
  (forall written_title,
     In (ESetConversationTitle written_title)
        (trace_of (processAudioFile cfg w ctx filePath caption userId
                     username chatId)) ->
     exists transcript,
       In (ETranscribeVoice filePath (Returned (Some transcript)))
          (trace_of (processAudioFile cfg w ctx filePath caption userId
                       username chatId)) /\
       written_title = title transcript) /\
  (forall written_title,
     In (ESetConversationTitle written_title)
        (trace_of (handleVideo cfg w ctx)) ->
     written_title
     = title (JS.or_else (message_caption ctx) (JS.lit "[Video]"))) /\
  (In (EIsActive false)
      (trace_of (processAudioFile cfg w ctx filePath caption userId username
                   chatId)) ->
   exists transcript,
     In (ETranscribeVoice filePath (Returned (Some transcript)))
        (trace_of (processAudioFile cfg w ctx filePath caption userId
                     username chatId)) /\
     In (ESetConversationTitle (title transcript))
        (trace_of (processAudioFile cfg w ctx filePath caption userId
                     username chatId))) /\
  (In (EIsActive false) (trace_of (handleVideo cfg w ctx)) ->
   In (ESetConversationTitle
         (title (JS.or_else (message_caption ctx) (JS.lit "[Video]"))))
      (trace_of (handleVideo cfg w ctx))) /\
  (forall turns h,
     Forall (invocation cfg w) turns ->
     count is_set_title (run_turns turns h)
     = count is_inactive_read (run_turns turns h) /\
     ((count is_inactive_read (run_turns turns h) <= 1)%nat ->
      (count is_set_title (run_turns turns h) <= 1)%nat)).
Proof.
  split; [exact title_long|]. split; [exact title_short|].
  split; [|split; [|split; [|split; [|split]]]].
  - intros t [-> | ->].
    + run (processAudioFile cfg w ctx filePath caption userId username
             chatId []);
        count_now;
        (split; [lia|]);
        (split; [intros H; first [reflexivity | find_event H] |]);
        intros written_title H; find_event H;
        (split; [event_here | intros H'; find_event H']).
    + run (handleVideo cfg w ctx []);
        count_now;
        (split; [lia|]);
        (split; [intros H; first [reflexivity | find_event H] |]);
        intros written_title H; find_event H;
        (split; [event_here | intros H'; find_event H']).
  - intros written_title H.
    run (processAudioFile cfg w ctx filePath caption userId username
           chatId []);
      find_event H.
    all: match goal with
         | Ht : JS.truthy ?o = Some ?s |- _ =>
             destruct o as [[|ch rest]|]; try discriminate Ht;
             injection Ht as Ht; subst
         end.
    all: eexists; split; [event_here | reflexivity].
  - intros written_title H.
    run (handleVideo cfg w ctx []); find_event H; reflexivity.
  - intros H.
    run (processAudioFile cfg w ctx filePath caption userId username
           chatId []);
      find_event H.
    all: match goal with
         | Ht : JS.truthy ?o = Some ?s |- _ =>
             destruct o as [[|ch rest]|]; try discriminate Ht;
             injection Ht as Ht; subst
         end.
    all: eexists; split; event_here.
  - intros H.
    run (handleVideo cfg w ctx []); find_event H; event_here.
  - intros turns h Hturns.
    pose proof (title_across_turns cfg w turns Hturns h) as Heq.
    split; [exact Heq | rewrite Heq; trivial].
Qed.

Lemma C8_conversation_title_witness :
  title (Sample.letters 60) = Sample.letters 47 ++ JS.lit "..." /\
  List.length (title (Sample.letters 60)) = 50%nat /\
  title (JS.lit "hello world") = JS.lit "hello world" /\
  title (JS.lit "Напомни мне завтра утром купить молоко, хлеб")
  = JS.lit "Напомни мне завтра утром купить молоко, хлеб" /\
  (count is_set_title
     (trace_of (handleVideo (Sample.cfg true) Sample.calm
                  (Sample.video_ctx Sample.alice None None))) <= 1)%nat /\
  count is_set_title
    (run_turns
       [handleVideo (Sample.cfg true) Sample.calm
          (Sample.video_ctx Sample.alice None None);
        handleVideo (Sample.cfg true) Sample.calm
          (Sample.video_ctx Sample.alice None None)] [])
  = count is_inactive_read
      (run_turns
         [handleVideo (Sample.cfg true) Sample.calm
            (Sample.video_ctx Sample.alice None None);
          handleVideo (Sample.cfg true) Sample.calm
            (Sample.video_ctx Sample.alice None None)] []).
Proof.
  destruct (C8_conversation_title (Sample.cfg true) Sample.calm
              (Sample.video_ctx Sample.alice None None)
              (JS.lit "/tmp/bot/audio_1.mp3") None 7 (JS.lit "alice") 9)
    as (Hlong & Hshort & Honce & _ & _ & _ & _ & Hturns).
  destruct (Hlong (Sample.letters 60)) as [Htitle Hlen];
    [vm_compute; lia|].
  split; [exact Htitle|]. split; [exact Hlen|].
  split; [apply Hshort; vm_compute; lia|].
  split; [apply Hshort; vm_compute; lia|].
  split; [apply (Honce _ (or_intror eq_refl))|].
  apply Hturns.
  apply Forall_cons; [right; left; eexists; reflexivity|].
  apply Forall_cons; [right; left; eexists; reflexivity | apply Forall_nil].
Defined.

Lemma audio_prompt_no_caption (transcript : JS.str) :
  audio_prompt transcript None = transcript.
Proof. reflexivity. Qed.

Lemma audio_prompt_caption (transcript caption : JS.str) :
  caption <> [] ->
  audio_prompt transcript (Some caption)
  = transcript ++ JS.nl ++ JS.nl ++ JS.lit "---" ++ JS.nl ++ JS.nl ++ caption.
Proof. destruct caption; [contradiction | reflexivity]. Qed.

(** C7 as amended.  The prompt handed to [sendMessageStreaming] by
    [processAudioFile] is assembled from the transcript returned by
    [transcribeVoice] and the caption: without a caption it is the
    transcript exactly; with a non-empty caption it is the whole transcript,
    the separator (two line feeds, three dashes, two line feeds) and then
    the caption, with nothing between separator and caption.  The
    6000-character transcript with caption ["summarize"] gives the 6000
    characters, the separator and ["summarize"]. *)
Theorem C7_audio_prompt (cfg : Config) (w : World) (ctx : Context)
    (filePath : JS.str) (caption : option JS.str) (userId : Z)
    (username : JS.str) (chatId : Z) :
  (forall transcript, audio_prompt transcript None = transcript) /\
  (forall transcript c, c <> [] ->
     audio_prompt transcript (Some c)
     = transcript ++ JS.nl ++ JS.nl ++ JS.lit "---" ++ JS.nl ++ JS.nl ++ c) /\
  audio_prompt (Sample.transcript_B) (Some (JS.lit "summarize"))
  = Sample.transcript_B ++ JS.nl ++ JS.nl ++ JS.lit "---" ++ JS.nl ++ JS.nl
    ++ JS.lit "summarize" /\
  (forall prompt name uid chat out,
     In (ESendMessageStreaming prompt name uid chat out)
        (trace_of (processAudioFile cfg w ctx filePath caption userId
                     username chatId)) ->
     exists transcript,
       In (ETranscribeVoice filePath (Returned (Some transcript)))
          (trace_of (processAudioFile cfg w ctx filePath caption userId
                       username chatId)) /\
       prompt = audio_prompt transcript caption).
Proof.
  split; [exact audio_prompt_no_caption|].
  split; [exact audio_prompt_caption|].
  split; [apply audio_prompt_caption; discriminate|].
  intros prompt name uid chat out H.
  run (processAudioFile cfg w ctx filePath caption userId username chatId []);
    find_event H.
  all: match goal with
       | Ht : JS.truthy ?o = Some ?s |- _ =>
           destruct o as [[|ch rest]|]; try discriminate Ht;
           injection Ht as Ht; subst
       end.
  all: eexists; split; [event_here | reflexivity].
Qed.

Lemma C7_audio_prompt_witness :
  audio_prompt (JS.lit "hello world") (Some (JS.lit "summarize"))
  = JS.lit "hello world" ++ JS.nl ++ JS.nl ++ JS.lit "---" ++ JS.nl ++ JS.nl ++
      JS.lit "summarize".
Proof.
  apply (proj1 (proj2 (C7_audio_prompt (Sample.cfg true) Sample.calm
                         (Sample.audio_ctx Sample.alice None None)
                         (JS.lit "/tmp/bot/audio_1.mp3") None 7 (JS.lit "alice")
                             9))).
  discriminate.
Defined.

(** C7 as stated fails in its Scenario B: for the 6000-character transcript
    and the caption ["summarize"], the prompt sent to the session is not the
    6000 characters, the separator, a space and ["summarize"]: the code puts
    no space before the caption. *)
Lemma C7_scenario_B_counterexample :
  List.length Sample.transcript_B = (60 * 100)%nat /\
  In (ESendMessageStreaming
        (audio_prompt (Sample.transcript_B) (Some (JS.lit "summarize")))
        (JS.lit "alice") 7 9 (Returned (JS.lit "hi")))
     (trace_of Sample.scenario_B_run) /\
  audio_prompt (Sample.transcript_B) (Some (JS.lit "summarize"))
  <> Sample.transcript_B ++ JS.nl ++ JS.nl ++ JS.lit "---" ++ JS.nl ++ JS.nl
     ++ JS.lit " summarize".
Proof.
  split; [reflexivity|]. split.
  - vm_compute. do 7 right. left; reflexivity.
  - intros H. apply (f_equal (@List.length N)) in H. vm_compute in H.
    discriminate H.
Qed.

Lemma audio_ext_absent : audio_ext None = JS.lit "mp3".
Proof. reflexivity. Qed.

(** The extension is the text after the last dot, as it is written. *)
Lemma audio_ext_after_dot (stem suffix : JS.str) :
  ~ contains suffix [JS.dot] ->
  audio_ext (Some (stem ++ [JS.dot] ++ suffix))
  = match suffix with [] => (JS.lit "mp3") | _ => suffix end.
Proof.
  intros Hdot. apply includes_false in Hdot. unfold audio_ext.
  rewrite pop_split_dot, (split_no_dot _ Hdot).
  now destruct suffix.
Qed.

(** A name without a dot is taken whole. *)
Lemma audio_ext_no_dot (name : JS.str) :
  ~ contains name [JS.dot] ->
  audio_ext (Some name)
  = match name with [] => (JS.lit "mp3") | _ => name end.
Proof.
  intros Hdot. apply includes_false in Hdot. unfold audio_ext.
  rewrite (split_no_dot _ Hdot). now destruct name.
Qed.

(** C9 as amended.  Every scratch file is written at
    [{TEMP_DIR}/{kind}_{timestamp}.{ext}], with the timestamp read from the
    clock in the same invocation and printed in decimal, and at most one
    file is written per invocation.  For video (and video notes) the
    extension is ["mp4"].  For audio it is the text after the last dot of
    the original file name, taken as it is written (letter case is kept);
    a name without a dot is taken whole; ["mp3"] is used when the file name
    is absent or that text is empty. *)
Theorem C9_scratch_paths (cfg : Config) (w : World) (ctx : Context) :
  (forall path,
     In path (written (trace_of (handleAudio cfg w ctx))) ->
     written (trace_of (handleAudio cfg w ctx)) = [path] /\
     exists timestamp m a,
       In (EDateNow timestamp) (trace_of (handleAudio cfg w ctx)) /\
       ctx_message ctx = Some m /\ msg_audio m = Some a /\
       path = TEMP_DIR cfg ++ JS.lit "/audio_" ++ JS.of_N timestamp ++ [JS.dot]
              ++ audio_ext (audio_file_name a)) /\
  (forall path,
     In path (written (trace_of (handleVideo cfg w ctx))) ->
     written (trace_of (handleVideo cfg w ctx)) = [path] /\
     exists timestamp,
       In (EDateNow timestamp) (trace_of (handleVideo cfg w ctx)) /\
       path = TEMP_DIR cfg ++ JS.lit "/video_" ++ JS.of_N timestamp
           ++ JS.lit ".mp4") /\
  audio_ext None = (JS.lit "mp3") /\
  (forall stem suffix, ~ contains suffix [JS.dot] ->
     audio_ext (Some (stem ++ [JS.dot] ++ suffix))
     = match suffix with [] => (JS.lit "mp3") | _ => suffix end) /\
  (forall name, ~ contains name [JS.dot] ->
     audio_ext (Some name)
     = match name with [] => (JS.lit "mp3") | _ => name end).
Proof.
  split; [|split; [|split; [exact audio_ext_absent|split;
    [exact audio_ext_after_dot | exact audio_ext_no_dot]]]].
  - intros path H.
    run (handleAudio cfg w ctx []); count_now in H; cbn [In] in H;
      try contradiction.
    all: destruct H as [<-|[]].
    all: split; [reflexivity|].
    all: do 3 eexists; split; [event_here|].
    all: repeat split; try eassumption; reflexivity.
  - intros path H.
    run (handleVideo cfg w ctx []); count_now in H; cbn [In] in H;
      try contradiction.
    all: destruct H as [<-|[]].
    all: split; [reflexivity|].
    all: eexists; split; [event_here|].
    all: destruct (ctx_message ctx) as [[? ? [?|] ?]|]; reflexivity.
Qed.

Lemma C9_scratch_paths_witness :
  audio_ext (Some (JS.lit "voice.memo.OGG")) = JS.lit "OGG".
Proof.
  apply (proj1 (proj2 (proj2 (proj2
           (C9_scratch_paths (Sample.cfg true) Sample.calm
              (Sample.audio_ctx Sample.alice None None)))))
           (JS.lit "voice.memo") (JS.lit "OGG")).
  rewrite <- includes_false. reflexivity.
Defined.

(** C9 as stated fails: two file names that differ only in letter case get
    different scratch paths, so the extension is not derived
    case-insensitively; and a name without a suffix does not get the
    default. *)
Lemma C9_case_kept_counterexample :
  JS.toLowerCase (JS.lit "Song.MP3") = JS.toLowerCase (JS.lit "song.mp3") /\
  written (trace_of (handleAudio (Sample.cfg true) Sample.calm
                       (Sample.audio_ctx Sample.alice (Some (JS.lit "Song.MP3"))
                           None)))
  = [JS.lit "/tmp/bot/audio_1700000000000.MP3"] /\
  written (trace_of (handleAudio (Sample.cfg true) Sample.calm
                       (Sample.audio_ctx Sample.alice (Some (JS.lit "song.mp3"))
                           None)))
  = [JS.lit "/tmp/bot/audio_1700000000000.mp3"] /\
  written (trace_of (handleAudio (Sample.cfg true) Sample.calm
                       (Sample.audio_ctx Sample.alice (Some (JS.lit "Song.MP3"))
                           None)))
  <> written (trace_of (handleAudio (Sample.cfg true) Sample.calm
                          (Sample.audio_ctx Sample.alice
                              (Some (JS.lit "song.mp3"))
                             None))) /\
  written (trace_of (handleAudio (Sample.cfg true) Sample.calm
                       (Sample.audio_ctx Sample.alice (Some (JS.lit "voice"))
                           None)))
  = [JS.lit "/tmp/bot/audio_1700000000000.voice"].
Proof.
  split; [reflexivity|]. split; [reflexivity|]. split; [reflexivity|].
  split; [|reflexivity]. vm_compute. discriminate.
Qed.

(* ------------------------------------------------------------------ *)
(** ** Further properties: [isAudioFile] and the extension *)

Lemma lower_char_dot (c : N) :
  N.eqb (JS.lower_char c) JS.dot = N.eqb c JS.dot.
Proof.
  unfold JS.lower_char, JS.dot.
  destruct (N.leb_spec 65 c), (N.leb_spec c 90); cbn [andb];
    try reflexivity.
  destruct (N.eqb_spec (c + 32) 46), (N.eqb_spec c 46); try reflexivity; lia.
Qed.

Lemma lower_char_idem (c : N) :
  JS.lower_char (JS.lower_char c) = JS.lower_char c.
Proof.
  unfold JS.lower_char.
  destruct (N.leb_spec 65 c), (N.leb_spec c 90); cbn [andb];
    try (destruct (N.leb_spec 65 c), (N.leb_spec c 90); cbn [andb];
         try reflexivity; lia).
  destruct (N.leb_spec 65 (c + 32)), (N.leb_spec (c + 32) 90); cbn [andb];
    try reflexivity; lia.
Qed.

(** Lower-casing commutes with splitting at dots. *)
Lemma split_toLowerCase (s : JS.str) :
  JS.split JS.dot (JS.toLowerCase s) = map JS.toLowerCase (JS.split JS.dot s).
Proof.
  unfold JS.toLowerCase.
  induction s as [|c s IH]; [reflexivity|].
  cbn [map JS.split]. rewrite lower_char_dot, IH.
  destruct (N.eqb c JS.dot); [reflexivity|].
  destruct (JS.split JS.dot s); reflexivity.
Qed.

Lemma pop_map (f : JS.str -> JS.str) (l : list JS.str) :
  JS.pop (map f l) = option_map f (JS.pop l).
Proof.
  induction l as [|x [|y l] IH]; [reflexivity | reflexivity | exact IH].
Qed.

Lemma toLowerCase_idem (s : JS.str) :
  JS.toLowerCase (JS.toLowerCase s) = JS.toLowerCase s.
Proof.
  unfold JS.toLowerCase. rewrite map_map. apply map_ext.
  exact lower_char_idem.
Qed.

Lemma or_else_lower (o : option JS.str) :
  JS.toLowerCase
    (JS.or_else (option_map JS.toLowerCase o) [])
  = JS.toLowerCase (JS.or_else o []).
Proof.
  destruct o as [[|c seg]|]; try reflexivity.
  exact (toLowerCase_idem (c :: seg)).
Qed.

(** [isAudioFile] does not see the letter case of the file name. *)
Lemma isAudioFile_lower (fileName : JS.str) (mimeType : option JS.str) :
  isAudioFile (Some (JS.toLowerCase fileName)) mimeType
  = isAudioFile (Some fileName) mimeType.
Proof.
  unfold isAudioFile.
  destruct (match mimeType with
            | Some m => JS.startsWith m (JS.lit "audio/")
            | None => false
            end); [reflexivity|].
  destruct fileName as [|c s]; [reflexivity|].
  change (JS.truthy (Some (JS.toLowerCase (c :: s))))
    with (Some (JS.toLowerCase (c :: s))).
  cbn [JS.truthy].
  now rewrite split_toLowerCase, pop_map, or_else_lower.
Qed.

(** X1. [isAudioFile] is case-insensitive in the file name: two names that
    agree after lower-casing get the same answer, whatever the mime type. *)
Theorem X1_isAudioFile_case_insensitive (f g : JS.str)
    (mimeType : option JS.str) :
  JS.toLowerCase f = JS.toLowerCase g ->
  isAudioFile (Some f) mimeType = isAudioFile (Some g) mimeType.
Proof.
  intros H.
  rewrite <- (isAudioFile_lower f), <- (isAudioFile_lower g).
  now rewrite H.
Qed.

Lemma X1_isAudioFile_case_insensitive_witness :
  isAudioFile (Some (JS.lit "Song.MP3")) None = isAudioFile
      (Some (JS.lit "song.mp3")) None.
Proof.
  apply (X1_isAudioFile_case_insensitive (JS.lit "Song.MP3") (JS.lit "song.mp3")
      None).
  reflexivity.
Defined.

Lemma startsWith_spec (s p : JS.str) :
  JS.startsWith s p = true <-> exists rest, s = p ++ rest.
Proof. apply prefix_iff. Qed.

Lemma existsb_eqb_In (x : JS.str) (l : list JS.str) :
  existsb (JS.eqb x) l = true <-> In x l.
Proof.
  rewrite existsb_exists. split.
  - intros (y & Hy & Heq). apply eqb_eq in Heq. now subst.
  - intros H. exists x. split; [exact H | now apply eqb_eq].
Qed.

(** X2. What [isAudioFile] accepts.  A mime type that starts with
    ["audio/"] is enough, whatever the name.  Without one, a name
    [stem.suffix] is accepted exactly when the lower-cased text after its
    last dot, with a dot in front, is one of the eight listed extensions:
    the stem does not matter.  A name without any dot is compared whole,
    and with neither name nor audio mime type the answer is no. *)
Theorem X2_isAudioFile_accepts (fileName mimeType : option JS.str) :
  (forall rest, mimeType = Some (JS.lit "audio/" ++ rest) ->
     isAudioFile fileName mimeType = true) /\
  (forall stem suffix,
     (forall rest, mimeType <> Some (JS.lit "audio/" ++ rest)) ->
     ~ contains suffix [JS.dot] ->
     (isAudioFile (Some (stem ++ [JS.dot] ++ suffix)) mimeType = true <->
      In ([JS.dot] ++ JS.toLowerCase suffix) AUDIO_EXTENSIONS)) /\
  (forall name,
     (forall rest, mimeType <> Some (JS.lit "audio/" ++ rest)) ->
     ~ contains name [JS.dot] -> name <> [] ->
     (isAudioFile (Some name) mimeType = true <->
      In ([JS.dot] ++ JS.toLowerCase name) AUDIO_EXTENSIONS)) /\
  ((forall rest, mimeType <> Some (JS.lit "audio/" ++ rest)) ->
   JS.truthy fileName = None ->
   isAudioFile fileName mimeType = false).
Proof.
  assert (Hmime : (forall rest, mimeType <> Some (JS.lit "audio/" ++ rest)) ->
                  match mimeType with
                  | Some m => JS.startsWith m (JS.lit "audio/")
                  | None => false
                  end = false).
  { intros Hno. destruct mimeType as [m|]; [|reflexivity].
    destruct (JS.startsWith m (JS.lit "audio/")) eqn:E; [|reflexivity].
    apply startsWith_spec in E. destruct E as [rest ->].
    now elim (Hno rest). }
  split; [|split; [|split]].
  - intros rest ->. unfold isAudioFile.
    replace (JS.startsWith (JS.lit "audio/" ++ rest) (JS.lit "audio/")) with
        true;
      [reflexivity|].
    symmetry. apply startsWith_spec. now exists rest.
  - intros stem suffix Hno Hdot. unfold isAudioFile.
    rewrite (Hmime Hno). apply includes_false in Hdot.
    replace (JS.truthy (Some (stem ++ [JS.dot] ++ suffix)))
      with (Some (stem ++ [JS.dot] ++ suffix)) by (now destruct stem).
    rewrite pop_split_dot, (split_no_dot _ Hdot).
    cbn [JS.pop]. replace (JS.or_else (Some suffix) []) with suffix
      by (now destruct suffix).
    apply existsb_eqb_In.
  - intros name Hno Hdot Hne. unfold isAudioFile.
    rewrite (Hmime Hno). apply includes_false in Hdot.
    destruct name as [|c s]; [contradiction|].
    cbn [JS.truthy]. rewrite (split_no_dot _ Hdot).
    cbn [JS.pop JS.or_else JS.truthy]. apply existsb_eqb_In.
  - intros Hno Hname. unfold isAudioFile. rewrite (Hmime Hno).
    now rewrite Hname.
Qed.

Lemma X2_isAudioFile_accepts_witness :
  isAudioFile (Some (JS.lit "podcast.episode.FLAC"))
      (Some (JS.lit "application/octet-stream"))
  = true.
Proof.
  apply (proj1 (proj2 (X2_isAudioFile_accepts None
                         (Some (JS.lit "application/octet-stream"))))
           (JS.lit "podcast.episode") (JS.lit "FLAC")).
  - intros rest H. discriminate H.
  - rewrite <- includes_false. reflexivity.
  - simpl. do 5 right. left. reflexivity.
Defined.

(** The last segment of a split at dots holds no dot. *)
Lemma pop_split_no_dot (s seg : JS.str) :
  JS.pop (JS.split JS.dot s) = Some seg -> JS.includes seg [JS.dot] = false.
Proof.
  revert seg; induction s as [|c s IH]; intros seg.
  - cbn. intros H. injection H as <-. reflexivity.
  - cbn [JS.split]. destruct (N.eqb_spec c JS.dot) as [->|Hc].
    + rewrite pop_cons by apply split_not_nil. apply IH.
    + pose proof (split_not_nil JS.dot s) as Hne.
      destruct (JS.split JS.dot s) as [|sg [|sg' rest]]; [contradiction | |].
      * cbn [JS.pop]. intros H. injection H as <-.
        rewrite includes_cons. rewrite (IH sg eq_refl), orb_false_r.
        cbn [JS.prefix]. rewrite andb_true_r.
        apply N.eqb_neq. congruence.
      * intros H. apply IH. exact H.
Qed.

(** X3. The extension [handleAudio] gives the scratch file is never empty
    and never holds a dot, whatever the original file name is (absent,
    empty, without a dot, ending in a dot, with several dots). *)
Theorem X3_audio_ext_well_formed (file_name : option JS.str) :
  audio_ext file_name <> [] /\
  ~ contains (audio_ext file_name) [JS.dot].
Proof.
  unfold audio_ext, JS.or_else.
  destruct file_name as [n|]; [|split; [discriminate|]].
  - destruct (JS.pop (JS.split JS.dot n)) as [[|c seg]|] eqn:E;
      cbn [JS.truthy]; (split; [discriminate|]).
    + apply includes_false. reflexivity.
    + apply includes_false. exact (pop_split_no_dot _ _ E).
    + apply includes_false. reflexivity.
  - apply includes_false. reflexivity.
Qed.

(* ------------------------------------------------------------------ *)
(** ** Further properties: gates and early exits *)

(** X4. An update without a usable sender, without a usable chat, or
    without the media the handler is for, is ignored: the handler makes no
    call at all and returns. *)
Theorem X4_incomplete_update_ignored (cfg : Config) (w : World)
    (ctx : Context) :
  (no_sender ctx \/ no_chat ctx \/ no_audio ctx ->
   handleAudio cfg w ctx [] = (Returned tt, [])) /\
  (no_sender ctx \/ no_chat ctx \/ video_of ctx = None ->
   handleVideo cfg w ctx [] = (Returned tt, [])).
Proof.
  split.
  - intros [H | [H | H]]; [use_guard H | use_guard H |].
    all: remember (handleAudio cfg w ctx []) as r eqn:Hr; revert Hr;
      run_all; try reflexivity; try congruence.
    all: match goal with
         | Hm : ctx_message _ = Some ?m, Ha : msg_audio ?m = Some _ |- _ =>
             rewrite (H m Hm) in Ha; discriminate Ha
         end.
  - intros [H | [H | H]]; [use_guard H | use_guard H |].
    all: remember (handleVideo cfg w ctx []) as r eqn:Hr; revert Hr;
      run_all; try reflexivity; congruence.
Qed.

Lemma X4_incomplete_update_ignored_witness :
  handleAudio (Sample.cfg true) Sample.calm Cases.anonymous []
  = (Returned tt, []) /\
  handleVideo (Sample.cfg true) Sample.calm Cases.anonymous []
  = (Returned tt, []).
Proof.
  split.
  - apply (proj1 (X4_incomplete_update_ignored (Sample.cfg true) Sample.calm
                    Cases.anonymous)).
    left; left; reflexivity.
  - apply (proj2 (X4_incomplete_update_ignored (Sample.cfg true) Sample.calm
                    Cases.anonymous)).
    left; left; reflexivity.
Defined.

(** X5. When the rate limiter refuses a request, in either handler, the
    calls are: the check, one throttling audit record carrying the user id,
    the user name (["unknown"] without one) and the waiting time, and then,
    if the audit call returned and a waiting time was given, one reply with
    that time printed by [toFixed(1)].  Nothing is downloaded, the lock is
    not taken and no content audit record is written.  When the limiter
    gives no waiting time, or the audit call throws, no reply is sent and
    the handler throws. *)
Theorem X5_throttled_request (cfg : Config) (w : World) (ctx : Context)
    (m : M unit) (userId : Z) (retryAfter : option Q) :
  m = handleAudio cfg w ctx \/ m = handleVideo cfg w ctx ->
  In (ERateLimiterCheck userId false retryAfter) (trace_of m) ->
  exists audited rest,
    trace_of m
    = ERateLimiterCheck userId false retryAfter
      :: EAuditLogRateLimit userId (username_of ctx) retryAfter audited
      :: rest /\
    (forall r, retryAfter = Some r -> audited = Returned tt ->
       exists replied, rest = [EReply (throttle_text w r) replied]) /\
    (retryAfter = None \/ (exists err, audited = Raised err) ->
       rest = [] /\ exists err, outcome_of m = Raised err) /\
    count is_download (trace_of m) = 0%nat /\
    count is_start (trace_of m) = 0%nat /\
    count is_content_audit (trace_of m) = 0%nat.
Proof.
  unfold username_of, throttle_text. intros [-> | ->] Hin.
  - run (handleAudio cfg w ctx []); find_event Hin.
    all: do 2 eexists; (split; [reflexivity|]).
    all: count_more.
    all: split;
      [ intros r Hr Ha;
        first [ discriminate Hr | discriminate Ha
              | injection Hr as <-; eexists; reflexivity ]
      | split;
        [ intros [Hn | [e He]]; try discriminate;
          (split; [reflexivity | eexists; reflexivity])
        | repeat split ] ].
  - run (handleVideo cfg w ctx []); find_event Hin.
    all: do 2 eexists; (split; [reflexivity|]).
    all: count_more.
    all: split;
      [ intros r Hr Ha;
        first [ discriminate Hr | discriminate Ha
              | injection Hr as <-; eexists; reflexivity ]
      | split;
        [ intros [Hn | [e He]]; try discriminate;
          (split; [reflexivity | eexists; reflexivity])
        | repeat split ] ].
Qed.

Lemma X5_throttled_request_witness :
  trace_of (handleAudio (Sample.cfg true) (Cases.throttled (Some 1.5%Q))
              (Sample.audio_ctx Sample.alice None None))
  = [ERateLimiterCheck 7 false (Some 1.5%Q);
     EAuditLogRateLimit 7 (JS.lit "alice") (Some 1.5%Q) (Returned tt);
     EReply (JS.lit "⏳ Rate limited. Please wait 1.5 seconds.")
       (Returned Sample.sent)].
Proof.
  destruct (X5_throttled_request (Sample.cfg true)
              (Cases.throttled (Some 1.5%Q))
              (Sample.audio_ctx Sample.alice None None)
              (handleAudio (Sample.cfg true) (Cases.throttled (Some 1.5%Q))
                 (Sample.audio_ctx Sample.alice None None))
              7 (Some 1.5%Q))
    as (audited & rest & Htrace & _).
  - left; reflexivity.
  - vm_compute. left; reflexivity.
  - rewrite Htrace. vm_compute in Htrace.
    injection Htrace as <- <-. reflexivity.
Defined.

(* ------------------------------------------------------------------ *)
(** ** Further properties: downloads and scratch files *)

(** X6. When a step of the download throws ([getFile], [fetch], reading
    the body, or [Bun.write]), the handler reports it and stops: the last
    call of [handleAudio] is the reply with the fixed download-failure
    text, the last call of [handleVideo] is the edit of the status message
    to its fixed download-failure text.  In both the lock is never taken,
    nothing is transcribed or sent to the session, and the handler returns
    normally when that last call is delivered. *)
Theorem X6_download_failure (cfg : Config) (w : World) (ctx : Context) :
  ((0 < count is_failed_download (trace_of (handleAudio cfg w ctx)))%nat ->
   (exists replied,
      last_event (trace_of (handleAudio cfg w ctx))
      = Some (EReply MSG_AUDIO_DOWNLOAD_FAILED replied) /\
      (forall sent, replied = Returned sent ->
         outcome_of (handleAudio cfg w ctx) = Returned tt)) /\
   count is_start (trace_of (handleAudio cfg w ctx)) = 0%nat /\
   count is_transcribe (trace_of (handleAudio cfg w ctx)) = 0%nat /\
   count is_stream (trace_of (handleAudio cfg w ctx)) = 0%nat) /\
  ((0 < count is_failed_download (trace_of (handleVideo cfg w ctx)))%nat ->
   (exists chatId statusMsg edited,
      last_event (trace_of (handleVideo cfg w ctx))
      = Some (EEditMessageText chatId (message_id statusMsg)
                MSG_VIDEO_DOWNLOAD_FAILED edited) /\
      In (EReply MSG_DOWNLOADING (Returned statusMsg))
         (trace_of (handleVideo cfg w ctx)) /\
      (edited = Returned tt ->
       outcome_of (handleVideo cfg w ctx) = Returned tt)) /\
   count is_start (trace_of (handleVideo cfg w ctx)) = 0%nat /\
   count is_stream (trace_of (handleVideo cfg w ctx)) = 0%nat).
Proof.
  split; intros H.
  - run (handleAudio cfg w ctx []); count_more in H; try lia; count_more.
    all: split; [eexists; split; [reflexivity|] | repeat split].
    all: intros sent Hsent; first [reflexivity | discriminate Hsent].
  - run (handleVideo cfg w ctx []); count_more in H; try lia; count_more.
    all: split;
      [do 3 eexists; split; [reflexivity|]; split; [event_here|]
      | repeat split].
    all: first [reflexivity | intros Hne; discriminate Hne].
Qed.

Lemma X6_download_failure_witness :
  exists replied,
    last_event (trace_of (handleAudio (Sample.cfg true) Cases.offline
                            (Sample.audio_ctx Sample.alice None None)))
    = Some (EReply MSG_AUDIO_DOWNLOAD_FAILED replied) /\
    (forall sent, replied = Returned sent ->
       outcome_of (handleAudio (Sample.cfg true) Cases.offline
                     (Sample.audio_ctx Sample.alice None None))
       = Returned tt).
Proof.
  apply (proj1 (X6_download_failure (Sample.cfg true) Cases.offline
                  (Sample.audio_ctx Sample.alice None None))).
  vm_compute. lia.
Defined.

(** X7. The typing indicator goes with the lock: in every run of either
    handler or of [processAudioFile] it is started as often as the lock is
    taken (never or once) and stopped as often as it is started, whatever
    the collaborators answer. *)
Theorem X7_typing_indicator_paired (cfg : Config) (w : World) (ctx : Context)
    (filePath : JS.str) (caption : option JS.str) (userId : Z)
    (username : JS.str) (chatId : Z) (m : M unit) :
  m = handleAudio cfg w ctx \/ m = handleVideo cfg w ctx \/
  m = processAudioFile cfg w ctx filePath caption userId username chatId ->
  count is_typing_start (trace_of m) = count is_start (trace_of m) /\
  count is_typing_stop (trace_of m) = count is_typing_start (trace_of m) /\
  (count is_typing_start (trace_of m) <= 1)%nat.
Proof.
  intros [-> | [-> | ->]].
  - run (handleAudio cfg w ctx []); count_more; repeat split; lia.
  - run (handleVideo cfg w ctx []); count_more; repeat split; lia.
  - run (processAudioFile cfg w ctx filePath caption userId username
           chatId []); count_more; repeat split; lia.
Qed.

Lemma X7_typing_indicator_paired_witness :
  count is_typing_stop (trace_of Sample.reset_run)
  = count is_typing_start (trace_of Sample.reset_run).
Proof.
  apply (X7_typing_indicator_paired (Sample.cfg true) Sample.reset
           (Sample.audio_ctx Sample.alice None None)
           (JS.lit "/tmp/bot/audio_1.mp3") None 7 (JS.lit "alice") 9
               Sample.reset_run).
  right; right; reflexivity.
Defined.

(** X8. Once [processAudioFile] has taken the lock, it attempts to delete
    the scratch file exactly once, as its very last call, on every path:
    failed transcription, streaming error, cancellation, success.  A
    deletion that throws is swallowed: it never changes how the function
    ends. *)
Theorem X8_audio_scratch_deleted (cfg : Config) (w : World) (ctx : Context)
    (filePath : JS.str) (caption : option JS.str) (userId : Z)
    (username : JS.str) (chatId : Z) :
  In EStartProcessing
     (trace_of (processAudioFile cfg w ctx filePath caption userId username
                  chatId)) ->
  count is_unlink
    (trace_of (processAudioFile cfg w ctx filePath caption userId username
                 chatId)) = 1%nat /\
  (exists unlinked,
     last_event
       (trace_of (processAudioFile cfg w ctx filePath caption userId
                    username chatId))
     = Some (EUnlinkSync filePath unlinked)) /\
  (forall err,
     outcome_of (processAudioFile cfg w ctx filePath caption userId username
                   chatId) = Raised err ->
     exists text,
       In (EReply text (Raised err))
          (trace_of (processAudioFile cfg w ctx filePath caption userId
                       username chatId))).
Proof.
  intros H.
  run (processAudioFile cfg w ctx filePath caption userId username chatId []);
    find_event H; count_more.
  all: split; [reflexivity|]; split; [eexists; reflexivity|].
  all: intros e He; first [discriminate He | injection He as <-].
  all: eexists; event_here.
Qed.

Lemma X8_audio_scratch_deleted_witness :
  count is_unlink (trace_of Sample.silent_run) = 1%nat.
Proof.
  apply (X8_audio_scratch_deleted (Sample.cfg true) Sample.silent
           (Sample.audio_ctx Sample.alice None None)
           (JS.lit "/tmp/bot/audio_1.mp3") None 7 (JS.lit "alice") 9).
  vm_compute. left; reflexivity.
Defined.

(** X9. Where scratch files stay behind.  [handleVideo] never deletes
    anything, on any path.  [handleAudio] deletes nothing when it answers
    that transcription is not configured, although by then it has written
    the scratch file; and nothing when the download itself failed. *)
Theorem X9_scratch_left_behind (cfg : Config) (w : World) (ctx : Context) :
  count is_unlink (trace_of (handleVideo cfg w ctx)) = 0%nat /\
  (forall replied,
     In (EReply MSG_NOT_CONFIGURED replied)
        (trace_of (handleAudio cfg w ctx)) ->
     (exists path, written (trace_of (handleAudio cfg w ctx)) = [path]) /\
     count is_unlink (trace_of (handleAudio cfg w ctx)) = 0%nat) /\
  ((0 < count is_failed_download (trace_of (handleAudio cfg w ctx)))%nat ->
   count is_unlink (trace_of (handleAudio cfg w ctx)) = 0%nat).
Proof.
  split; [|split].
  - run (handleVideo cfg w ctx []); reflexivity.
  - intros replied H.
    run (handleAudio cfg w ctx []); find_event H; count_more;
      try discriminate.
    all: split; [eexists; reflexivity | reflexivity].
  - intros H.
    run (handleAudio cfg w ctx []); count_more in H; try lia; reflexivity.
Qed.

Lemma X9_scratch_left_behind_witness :
  (exists path,
     written (trace_of (handleAudio (Sample.cfg false) Sample.calm
                          (Sample.audio_ctx Sample.alice None None)))
     = [path]) /\
  count is_unlink
    (trace_of (handleAudio (Sample.cfg false) Sample.calm
                 (Sample.audio_ctx Sample.alice None None))) = 0%nat.
Proof.
  apply (proj1 (proj2 (X9_scratch_left_behind (Sample.cfg false) Sample.calm
                         (Sample.audio_ctx Sample.alice None None)))
           (Returned Sample.sent)).
  vm_compute. do 6 right. left; reflexivity.
Defined.

(** X10. [handleAudio] works on the file it downloaded: every
    transcription call is made on the path that was just written
    successfully, and the deletion in the cleanup is of that same path. *)
Theorem X10_audio_same_file (cfg : Config) (w : World) (ctx : Context)
    (path : JS.str) :
  (forall out, In (ETranscribeVoice path out)
                  (trace_of (handleAudio cfg w ctx)) ->
     (exists buffer,
        In (EBunWrite path buffer (Returned tt))
           (trace_of (handleAudio cfg w ctx))) /\
     written (trace_of (handleAudio cfg w ctx)) = [path] /\
     exists unlinked,
       last_event (trace_of (handleAudio cfg w ctx))
       = Some (EUnlinkSync path unlinked)) /\
  (forall out, In (EUnlinkSync path out) (trace_of (handleAudio cfg w ctx)) ->
     written (trace_of (handleAudio cfg w ctx)) = [path]).
Proof.
  split; intros out H.
  - run (handleAudio cfg w ctx []); find_event H; count_more.
    all: repeat match goal with u : unit |- _ => destruct u end.
    all: split; [eexists; event_here|].
    all: split; [reflexivity | eexists; reflexivity].
  - run (handleAudio cfg w ctx []); find_event H; count_more; reflexivity.
Qed.

Lemma X10_audio_same_file_witness :
  written (trace_of (handleAudio (Sample.cfg true) Sample.calm
                       (Sample.audio_ctx Sample.alice (Some (JS.lit "a.ogg"))
                           None)))
  = [JS.lit "/tmp/bot/audio_1700000000000.ogg"].
Proof.
  apply (proj2 (X10_audio_same_file (Sample.cfg true) Sample.calm
                  (Sample.audio_ctx Sample.alice (Some (JS.lit "a.ogg")) None)
                  (JS.lit "/tmp/bot/audio_1700000000000.ogg"))
           (Returned tt)).
  vm_compute. repeat first [left; reflexivity | right].
Defined.

(* ------------------------------------------------------------------ *)
(** ** Further properties: the session exchange *)

(** X11. A content audit record is written only after
    [sendMessageStreaming] has returned, at most once, and carries the
    response verbatim.  For audio the kind is ["AUDIO"] and the input is the
    whole transcript; for video the kind is ["VIDEO"] and the input is the
    caption, or ["[video]"] without one.  When the streaming call throws,
    no content audit record is written. *)
Theorem X11_content_audit (cfg : Config) (w : World) (ctx : Context)
    (filePath : JS.str) (caption : option JS.str) (userId : Z)
    (username : JS.str) (chatId : Z) :
  (forall uid name kind input output out,
     In (EAuditLog uid name kind input output out)
        (trace_of (processAudioFile cfg w ctx filePath caption userId
                     username chatId)) ->
     kind = (JS.lit "AUDIO") /\
     In (ETranscribeVoice filePath (Returned (Some input)))
        (trace_of (processAudioFile cfg w ctx filePath caption userId
                     username chatId)) /\
     In (ESendMessageStreaming (audio_prompt input caption) name uid chatId
           (Returned output))
        (trace_of (processAudioFile cfg w ctx filePath caption userId
                     username chatId)) /\
     count is_content_audit
       (trace_of (processAudioFile cfg w ctx filePath caption userId
                    username chatId)) = 1%nat) /\
  (forall uid name kind input output out,
     In (EAuditLog uid name kind input output out)
        (trace_of (handleVideo cfg w ctx)) ->
     kind = (JS.lit "VIDEO") /\
     input = JS.or_else (message_caption ctx) (JS.lit "[video]") /\
     name = username_of ctx /\
     (exists prompt chat,
        In (ESendMessageStreaming prompt name uid chat (Returned output))
           (trace_of (handleVideo cfg w ctx))) /\
     count is_content_audit (trace_of (handleVideo cfg w ctx)) = 1%nat) /\
  (forall m prompt name uid chat desc,
     m = handleVideo cfg w ctx \/
     m = processAudioFile cfg w ctx filePath caption userId username chatId ->
     In (ESendMessageStreaming prompt name uid chat (Raised desc))
        (trace_of m) ->
     count is_content_audit (trace_of m) = 0%nat).
Proof.
  unfold username_of. split; [|split].
  - intros uid name kind input output out H.
    run (processAudioFile cfg w ctx filePath caption userId username
           chatId []); find_event H.
    all: match goal with
         | Ht : JS.truthy ?o = Some ?s |- _ =>
             destruct o as [[|ch rest]|]; try discriminate Ht;
             injection Ht as Ht; subst
         end.
    all: count_more; split; [reflexivity|]; split; [event_here|];
      split; [event_here | reflexivity].
  - intros uid name kind input output out H.
    run (handleVideo cfg w ctx []); find_event H.
    all: count_more; repeat split; try reflexivity.
    all: do 2 eexists; event_here.
  - intros m prompt name uid chat desc [-> | ->] H.
    + run (handleVideo cfg w ctx []); find_event H; reflexivity.
    + run (processAudioFile cfg w ctx filePath caption userId username
             chatId []); find_event H; reflexivity.
Qed.

Lemma X11_content_audit_witness :
  count is_content_audit (trace_of Sample.reset_run) = 0%nat.
Proof.
  apply (proj2 (proj2 (X11_content_audit (Sample.cfg true) Sample.reset
                         (Sample.audio_ctx Sample.alice None None)
                         (JS.lit "/tmp/bot/audio_1.mp3") None 7 (JS.lit "alice")
                             9))
           Sample.reset_run (JS.lit "hello world") (JS.lit "alice") 7 9
           (JS.lit "Error: connection reset")).
  - right; reflexivity.
  - vm_compute. do 7 right. left; reflexivity.
Defined.

Lemma outcome_unit_eta (o : Outcome unit) :
  o = match o with Returned _ => Returned tt | Raised e => Raised e end.
Proof. now destruct o as [[]|]. Qed.



Lemma displayTranscript_short (transcript : JS.str) :
  (List.length transcript <= 4000)%nat ->
  displayTranscript transcript = transcript.
Proof.
  intros H. unfold displayTranscript.
  destruct (Nat.ltb_spec 4000 (List.length transcript)); [lia|reflexivity].
Qed.

Lemma displayTranscript_long (transcript : JS.str) :
  (4000 < List.length transcript)%nat ->
  displayTranscript transcript = JS.slice0 4000 transcript ++ JS.lit "…" /\
  List.length (JS.slice0 4000 transcript) = 4000%nat.
Proof.
  intros H. unfold displayTranscript.
  destruct (Nat.ltb_spec 4000 (List.length transcript)); [|lia].
  split; [reflexivity|]. rewrite slice0_length. lia.
Qed.

(** X13. [processAudioFile] shows the transcript before it asks the
    session: whenever [sendMessageStreaming] is called, the status message
    (the one the first reply returned) has been edited, successfully, to
    the quoted preview of the transcript.  The preview is the transcript
    itself up to 4000 characters, and its first 4000 characters followed by
    an ellipsis beyond that.  If that edit throws, the session is not
    asked. *)
Theorem X13_preview_before_streaming (cfg : Config) (w : World)
    (ctx : Context) (filePath : JS.str) (caption : option JS.str)
    (userId : Z) (username : JS.str) (chatId : Z) :
  (forall prompt name uid chat out,
     In (ESendMessageStreaming prompt name uid chat out)
        (trace_of (processAudioFile cfg w ctx filePath caption userId
                     username chatId)) ->
     exists statusMsg transcript,
       In (EReply MSG_TRANSCRIBING (Returned statusMsg))
          (trace_of (processAudioFile cfg w ctx filePath caption userId
                       username chatId)) /\
       In (ETranscribeVoice filePath (Returned (Some transcript)))
          (trace_of (processAudioFile cfg w ctx filePath caption userId
                       username chatId)) /\
       In (EEditMessageText chatId (message_id statusMsg)
             (JS.lit "🎤 " ++ JS.dquote ++ displayTranscript transcript
              ++ JS.dquote)
             (Returned tt))
          (trace_of (processAudioFile cfg w ctx filePath caption userId
                       username chatId))) /\
  (forall chat msg text err,
     In (EEditMessageText chat msg text (Raised err))
        (trace_of (processAudioFile cfg w ctx filePath caption userId
                     username chatId)) ->
     count is_stream
       (trace_of (processAudioFile cfg w ctx filePath caption userId
                    username chatId)) = 0%nat) /\
  (forall transcript, (List.length transcript <= 4000)%nat ->
     displayTranscript transcript = transcript) /\
  (forall transcript, (4000 < List.length transcript)%nat ->
     displayTranscript transcript = JS.slice0 4000 transcript ++ JS.lit "…" /\
     List.length (JS.slice0 4000 transcript) = 4000%nat).
Proof.
  split; [|split; [|split;
    [exact displayTranscript_short | exact displayTranscript_long]]].
  - intros prompt name uid chat out H.
    run (processAudioFile cfg w ctx filePath caption userId username
           chatId []); find_event H.
    all: match goal with
         | Ht : JS.truthy ?o = Some ?s |- _ =>
             destruct o as [[|ch rest]|]; try discriminate Ht;
             injection Ht as Ht; subst
         end.
    all: repeat match goal with u : unit |- _ => destruct u end.
    all: do 2 eexists; split; [event_here|]; split; event_here.
  - intros chat msg text err H.
    run (processAudioFile cfg w ctx filePath caption userId username
           chatId []); find_event H; reflexivity.
Qed.

Lemma X13_preview_before_streaming_witness :
  displayTranscript Sample.transcript_B
  = JS.slice0 4000 Sample.transcript_B ++ JS.lit "…".
Proof.
  apply (proj2 (proj2 (proj2
           (X13_preview_before_streaming (Sample.cfg true) Sample.calm
              (Sample.audio_ctx Sample.alice None None)
              (JS.lit "/tmp/bot/audio_1.mp3") None 7 (JS.lit "alice") 9)))).
  vm_compute. lia.
Defined.

Lemma video_prompt_contains_path (videoPath : JS.str)
    (caption : option JS.str) :
  contains (video_prompt videoPath caption) videoPath.
Proof.
  unfold video_prompt, contains.
  destruct (JS.truthy caption) as [c|].
  - exists (JS.lit "Here's a video file at path: "),
      (JS.nl ++ JS.nl ++ JS.lit "User says: " ++ c). reflexivity.
  - exists (JS.lit "I've received a video file at path: "),
      (JS.nl ++ JS.nl ++ JS.lit "Please transcribe it for me."). reflexivity.
Qed.

(** X14. The prompt [handleVideo] sends to the session names the file it
    has just written: the prompt is one of the two templates instantiated
    with the path of the successful [Bun.write], so it contains that path
    verbatim; with a non-empty caption it ends with the caption, without
    one it ends with the request to transcribe. *)
Theorem X14_video_prompt_names_file (cfg : Config) (w : World)
    (ctx : Context) :
  (forall prompt name uid chat out,
     In (ESendMessageStreaming prompt name uid chat out)
        (trace_of (handleVideo cfg w ctx)) ->
     exists path buffer,
       In (EBunWrite path buffer (Returned tt))
          (trace_of (handleVideo cfg w ctx)) /\
       written (trace_of (handleVideo cfg w ctx)) = [path] /\
       prompt = video_prompt path (message_caption ctx) /\
       contains prompt path) /\
  (forall path c, c <> [] ->
     video_prompt path (Some c)
     = JS.lit "Here's a video file at path: " ++ path ++ JS.nl ++ JS.nl
       ++ JS.lit "User says: " ++ c) /\
  (forall path caption, JS.truthy caption = None ->
     video_prompt path caption
     = JS.lit "I've received a video file at path: " ++ path ++ JS.nl ++ JS.nl
       ++ JS.lit "Please transcribe it for me.").
Proof.
  split; [|split].
  - intros prompt name uid chat out H.
    run (handleVideo cfg w ctx []); find_event H.
    all: repeat match goal with u : unit |- _ => destruct u end.
    all: do 2 eexists; split; [event_here|]; split; [reflexivity|];
      split; [reflexivity | apply video_prompt_contains_path].
  - intros path [|ch c] Hc; [contradiction | reflexivity].
  - intros path caption Hc. unfold video_prompt. now rewrite Hc.
Qed.

Lemma X14_video_prompt_names_file_witness :
  video_prompt (JS.lit "/tmp/bot/video_1.mp4") (Some (JS.lit "what is this?"))
  = JS.lit "Here's a video file at path: " ++ JS.lit "/tmp/bot/video_1.mp4" ++
      JS.nl
    ++ JS.nl ++ JS.lit "User says: " ++ JS.lit "what is this?".
Proof.
  apply (proj1 (proj2 (X14_video_prompt_names_file (Sample.cfg true)
                         Sample.calm
                         (Sample.video_ctx Sample.alice None None)))).
  discriminate.
Defined.

Lemma too_large_spec (v : Video) :
  too_large v = true <->
  exists size, video_file_size v = Some size /\ MAX_VIDEO_SIZE < size.
Proof.
  unfold too_large, JS.truthy_num.
  destruct (video_file_size v) as [size|].
  - destruct (Z.eqb_spec size 0) as [->|Hnz].
    + split; [discriminate|].
      intros (s & Hs & Hlt). injection Hs as <-.
      unfold MAX_VIDEO_SIZE in Hlt. lia.
    + rewrite Z.ltb_lt. split.
      * intros H. now exists size.
      * intros (s & Hs & Hlt). now injection Hs as <-.
  - split; [discriminate | now intros (s & Hs & _)].
Qed.

(** X15. No download starts before the gates have passed.  In
    [handleAudio] a [getFile] call is always the second call of the run,
    right after a rate-limit check that admitted the request, and the
    sender is on the allow list.  In [handleVideo] it is the third call,
    after the admitting rate-limit check and the delivered status reply;
    the sender is on the allow list and the declared size did not trip the
    size gate. *)
Theorem X15_download_only_after_gates (cfg : Config) (w : World)
    (ctx : Context) :
  (forall out, In (EGetFile out) (trace_of (handleAudio cfg w ctx)) ->
     exists u retryAfter rest,
       ctx_from ctx = Some u /\
       In (user_id u) (ALLOWED_USERS cfg) /\
       trace_of (handleAudio cfg w ctx)
       = ERateLimiterCheck (user_id u) true retryAfter
         :: EGetFile out :: rest) /\
  (forall out, In (EGetFile out) (trace_of (handleVideo cfg w ctx)) ->
     exists u v retryAfter statusMsg rest,
       ctx_from ctx = Some u /\
       In (user_id u) (ALLOWED_USERS cfg) /\
       video_of ctx = Some v /\
       too_large v = false /\
       trace_of (handleVideo cfg w ctx)
       = ERateLimiterCheck (user_id u) true retryAfter
         :: EReply MSG_DOWNLOADING (Returned statusMsg)
         :: EGetFile out :: rest).
Proof.
  split; intros out H.
  - run (handleAudio cfg w ctx []); find_event H.
    all: do 3 eexists; split; [reflexivity|];
      split; [now apply isAuthorized_spec | reflexivity].
  - run (handleVideo cfg w ctx []); find_event H.
    all: do 5 eexists; split; [reflexivity|];
      split; [now apply isAuthorized_spec|];
      split; [reflexivity|]; split; [assumption | reflexivity].
Qed.

Lemma X15_download_only_after_gates_witness :
  exists u retryAfter rest,
    ctx_from (Sample.audio_ctx Sample.alice None None) = Some u /\
    In (user_id u) (ALLOWED_USERS (Sample.cfg true)) /\
    trace_of (handleAudio (Sample.cfg true) Cases.offline
                (Sample.audio_ctx Sample.alice None None))
    = ERateLimiterCheck (user_id u) true retryAfter
      :: EGetFile (Raised (JS.lit "Error: network")) :: rest.
Proof.
  apply (proj1 (X15_download_only_after_gates (Sample.cfg true)
                  Cases.offline (Sample.audio_ctx Sample.alice None None))).
  vm_compute. right; left; reflexivity.
Defined.

(** X16. The size gate of [handleVideo] fires exactly when a size is
    declared and is strictly greater than 50 MiB.  A video of exactly
    50 MiB, or smaller, from an authorized sender passes it: the first call
    of the handler is then the rate-limit check. *)
Theorem X16_size_gate_boundary (cfg : Config) (w : World) (ctx : Context)
    (u : User) (c : Chat) (v : Video) (size : Z) :
  (too_large v = true <->
   exists declared,
     video_file_size v = Some declared /\ 50 * 1024 * 1024 < declared) /\
  (video_event ctx u c v ->
   In (user_id u) (ALLOWED_USERS cfg) ->
   video_file_size v = Some size ->
   size <= 50 * 1024 * 1024 ->
   exists allowed retryAfter rest,
     trace_of (handleVideo cfg w ctx)
     = ERateLimiterCheck (user_id u) allowed retryAfter :: rest).
Proof.
  split; [exact (too_large_spec v)|].
  intros (Hfrom & Huid & Hchat & Hcid & Hvideo) Hin Hsize Hle.
  apply Z.eqb_neq in Huid, Hcid. apply isAuthorized_spec in Hin.
  assert (Hsmall : too_large v = false).
  { destruct (too_large v) eqn:E; [|reflexivity].
    apply too_large_spec in E. destruct E as (s & Hs & Hlt).
    rewrite Hsize in Hs. injection Hs as <-.
    unfold MAX_VIDEO_SIZE in Hlt. lia. }
  run (handleVideo cfg w ctx []); do 3 eexists; reflexivity.
Qed.

Lemma X16_size_gate_boundary_witness :
  exists allowed retryAfter rest,
    trace_of (handleVideo (Sample.cfg true) Sample.calm
                (Sample.video_ctx Sample.alice (Some (50 * 1024 * 1024))
                   None))
    = ERateLimiterCheck 7 allowed retryAfter :: rest.
Proof.
  apply (proj2 (X16_size_gate_boundary (Sample.cfg true) Sample.calm
                  (Sample.video_ctx Sample.alice (Some (50 * 1024 * 1024))
                     None)
                  Sample.alice Sample.chat
                  {| video_file_size := Some (50 * 1024 * 1024) |}
                  (50 * 1024 * 1024))).
  - repeat split; discriminate.
  - simpl. left; reflexivity.
  - reflexivity.
  - lia.
Defined.
